(** * Phenology signal-processing core of the plant-bloom backend

    A shallow embedding of the analysis functions of the Express server
    (movingAverage, detectBloom, emptyDetection, dayOfYear, the summary of
    the /api/phenology handler, analyzeTrends, calculateLinearTrend and
    detectAnomalies), followed by the properties checked against them.

    Numbers.  A JavaScript number is an IEEE 754 binary64 number, a
    "double".  The functions are modelled on exact rationals ([Q]): there
    sums, products and quotients are the mathematical ones and no rounding
    takes place.  [movingAverage] and [detectAnomalies], where rounding
    changes an answer, are modelled a second time over an arithmetic that
    is a parameter, with the doubles as one instance ([Number.double]) and
    the rationals as the other.  Array indices and loop counters are [nat]
    or [Z].  [null] and [undefined] are [None]. *)

From Stdlib Require Import String Ascii DecimalString.
From Stdlib Require Import List Bool Arith ZArith QArith Qround Qabs Qpower.
From Stdlib Require Import Lia Lqa.
From Stdlib Require Import Permutation Sorted.
From Stdlib Require Import PrimFloat.
Import ListNotations.

(** A decimal literal of a double stands for the nearest double, as in
    JavaScript. *)
Set Warnings "-inexact-float".

Local Open Scope string_scope.
Local Open Scope list_scope.
Local Open Scope Q_scope.

(** ** JavaScript primitives used by the server code *)

Module JS.

(** [a < b], [a <= b] and their mirror images on numbers. *)
Definition ltb (a b : Q) : bool :=
  match a ?= b with Lt => true | _ => false end.

Definition leb (a b : Q) : bool :=
  match a ?= b with Gt => false | _ => true end.

Definition gtb (a b : Q) : bool := ltb b a.
Definition geb (a b : Q) : bool := leb b a.

(** [Math.max(a, b)] and [Math.min(a, b)]. *)
Definition Math_max (a b : Q) : Q := if ltb a b then b else a.
Definition Math_min (a b : Q) : Q := if ltb b a then b else a.

(** [Math.abs], [Math.pow] with an integer exponent, [Math.floor],
    [Math.round] (halves round upwards). *)
Definition Math_abs (a : Q) : Q := Qabs a.
Definition Math_pow (a : Q) (n : Z) : Q := a ^ n.
Definition Math_floor (a : Q) : Z := Qfloor a.
Definition Math_round (a : Q) : Z := Qfloor (a + (1 # 2)).

(** [arr[i]] for a numeric array; the default stands for a read that the
    caller has shown to be in range. *)
Definition get (arr : list Q) (i : nat) : Q := nth i arr 0.

(** [arr.reduce((acc, v, i) => f(acc, v, i), init)]. *)
Fixpoint reduce_from {A B : Type} (f : B -> A -> nat -> B)
    (arr : list A) (i : nat) (acc : B) : B :=
  match arr with
  | [] => acc
  | v :: rest => reduce_from f rest (S i) (f acc v i)
  end.

Definition reduce {A B : Type} (f : B -> A -> nat -> B)
    (arr : list A) (init : B) : B :=
  reduce_from f arr 0%nat init.

(** [arr.sort(cmp)] for a comparator given as its "not after" test:
    a stable insertion sort. *)
Fixpoint insert {A : Type} (le : A -> A -> bool) (x : A) (l : list A)
    : list A :=
  match l with
  | [] => [x]
  | y :: rest => if le x y then x :: l else y :: insert le x rest
  end.

Fixpoint sort {A : Type} (le : A -> A -> bool) (l : list A) : list A :=
  match l with
  | [] => []
  | x :: rest => insert le x (sort le rest)
  end.

(** The integers [a, a+1, ..., a+len-1] visited by a counting loop. *)
Definition zrange (a : Z) (len : nat) : list Z :=
  map (fun k => (a + Z.of_nat k)%Z) (seq 0 len).

(** [for (let j = a; j <= b; j++)]. *)
Definition zupto (a b : Z) : list Z := zrange a (Z.to_nat (b - a + 1)).

End JS.

(** ** Smoother: [movingAverage] *)

(** [values[j]] for an integer index known to satisfy [0 <= j < length]. *)
Definition at_Z (values : list Q) (j : Z) : Q := JS.get values (Z.to_nat j).

(** One pass of the inner loop: [sum] and [count] after visiting [j]. *)
Definition window_step (values : list Q) (acc : Q * Z) (j : Z) : Q * Z :=
  let '(sum, count) := acc in
  if ((0 <=? j)%Z && (j <? Z.of_nat (length values))%Z)%bool
  then (sum + at_Z values j, (count + 1)%Z)
  else (sum, count).

Definition window_acc (values : list Q) (i half : Z) : Q * Z :=
  fold_left (window_step values) (JS.zupto (i - half) (i + half)) (0, 0%Z).

Definition movingAverage (values : list Q) (windowSize : Z) : list Q :=
  let half := (windowSize / 2)%Z in
  map (fun i =>
         let '(sum, count) := window_acc values (Z.of_nat i) half in
         if (count =? 0)%Z then JS.get values i else sum / inject_Z count)
      (seq 0 (length values)).

(** ** Dates

    Every sample date is produced by [toISOString().split('T')[0]], a
    calendar day written YYYY-MM-DD; it is kept as its three numbers.
    Such a string is never empty, so a date is always truthy. *)

Record ISODate : Type := mkDate { year : Z; month : Z; day : Z }.

(** Days from 1970-01-01 to the first of the given month, proleptic
    Gregorian calendar. *)
Definition days_from_civil (y m : Z) : Z :=
  let y' := (if m <=? 2 then y - 1 else y)%Z in
  let era := (y' / 400)%Z in
  let yoe := (y' - era * 400)%Z in
  let mp := ((m + 9) mod 12)%Z in
  let doy := ((153 * mp + 2) / 5)%Z in
  let doe := (yoe * 365 + yoe / 4 - yoe / 100 + doy)%Z in
  (era * 146097 + doe - 719468)%Z.

Definition ms_per_day : Z := (1000 * 60 * 60 * 24)%Z.

(** Milliseconds from the epoch to midnight UTC of day [d] of the
    zero-based month [m0] of the year [y]; a day number outside the month
    rolls over, so day 0 is the last day of the month before. *)
Definition civil_ms (y m0 d : Z) : Z :=
  ((days_from_civil y (m0 + 1) + (d - 1)) * ms_per_day)%Z.

(** [new Date(y, m0, d)], as milliseconds: a year from 0 to 99 stands for
    the year 1900 + y.  The constructor reads its arguments in local time;
    the host clock is taken to be UTC. *)
Definition Date_of (y m0 d : Z) : Z :=
  let yr := (if ((0 <=? y) && (y <=? 99))%Z%bool then 1900 + y else y)%Z in
  civil_ms yr m0 d.

(** [new Date(dateStr)] for a date-only string: midnight UTC of the day
    written, whatever the year. *)
Definition Date_parse (d : ISODate) : Z :=
  civil_ms (year d) (month d - 1) (day d).

(** ** Samples and bloom events *)

Record Sample : Type := mkSample {
  date : ISODate;
  value : Q;
  sample_confidence : Q
}.

Record BloomEvent : Type := mkBloomEvent {
  onsetDate : option ISODate;
  peakDate : option ISODate;
  endDate : option ISODate;
  peakValue : option Q;
  durationDays : option Q;
  confidence : Q
}.

(** A call either returns or throws (here only the TypeError raised by
    reading a property of [undefined]). *)
Inductive outcome (A : Type) : Type :=
| Returns (a : A)
| Throws (error : string).
Arguments Returns {A} a.
Arguments Throws {A} error.

Definition bind {A B : Type} (c : outcome A) (k : A -> outcome B)
    : outcome B :=
  match c with
  | Returns a => k a
  | Throws e => Throws e
  end.

Notation "x <- c ;; k" := (bind c (fun x => k))
  (at level 61, c at next level, right associativity).

Definition TypeError : string := "TypeError".

(** ** BloomDetector: [detectBloom] and [emptyDetection] *)

Definition emptyDetection : BloomEvent :=
  {| onsetDate := None; peakDate := None; endDate := None;
     peakValue := None; durationDays := None; confidence := 0.5 |}.

(** [Math.floor(p * (length - 1))], the rank of a percentile. *)
Definition percentile_index (p : Q) (len : nat) : Z :=
  JS.Math_floor (p * inject_Z (Z.of_nat len - 1)).

Definition sort_numeric (values : list Q) : list Q := JS.sort JS.leb values.

(** The test of the onset loop at index [i]. *)
Definition rising (values : list Q) (threshold : Q) (i : nat) : bool :=
  JS.ltb (JS.get values (i - 1)) threshold
  && JS.geb (JS.get values i) threshold.

(** The test of the end loop at index [i]. *)
Definition falling (values : list Q) (threshold : Q) (i : nat) : bool :=
  JS.ltb (JS.get values (i + 1)) threshold
  && JS.geb (JS.get values i) threshold.

(** [for (i = 1; i < length; i++)] with [break]; [None] is the -1 the
    source starts from. *)
Definition onsetIdx_of (values : list Q) (threshold : Q) : option nat :=
  find (rising values threshold) (seq 1 (length values - 1)).

Definition peakIdx_of (values : list Q) : nat :=
  JS.reduce (fun best v i => if JS.gtb v (JS.get values best) then i else best)
            values 0%nat.

(** The indices [length-2, length-3, ..., peakIdx+1] of the end loop. *)
Definition end_scan (len peakIdx : nat) : list nat :=
  rev (seq (S peakIdx) (len - 2 - peakIdx)).

Definition endIdx_of (values : list Q) (threshold : Q) (peakIdx : nat)
    : option nat :=
  match find (falling values threshold) (end_scan (length values) peakIdx) with
  | Some i => Some (i + 1)%nat
  | None => None
  end.

(** [idx >= 0 ? series[idx].date : null]. *)
Definition date_at (series : list Sample) (idx : option nat)
    : outcome (option ISODate) :=
  match idx with
  | None => Returns None
  | Some i =>
      match nth_error series i with
      | Some s => Returns (Some (date s))
      | None => Throws TypeError
      end
  end.

(** [series[idx]?.date || null]. *)
Definition date_at_opt (series : list Sample) (idx : nat) : option ISODate :=
  match nth_error series idx with
  | Some s => Some (date s)
  | None => None
  end.

Definition duration_of (onsetDate endDate : option ISODate) : option Q :=
  match onsetDate, endDate with
  | Some o, Some e =>
      Some (JS.Math_max 0
              (inject_Z (Date_parse e - Date_parse o) / inject_Z ms_per_day))
  | _, _ => None
  end.

Definition is_some {A : Type} (o : option A) : bool :=
  match o with Some _ => true | None => false end.

Definition completeness_of (onsetDate peakDate endDate : option ISODate) : Q :=
  if is_some onsetDate && is_some peakDate && is_some endDate then 1 else 0.6.

(** [series] is the dated series, [smoothedValues] its smoothed values.
    The percentile reads are in range as soon as [smoothedValues] is not
    empty; the source reads [undefined] there only when it is empty while
    [series] is not. *)
Definition detectBloom (series : list Sample) (smoothedValues : list Q)
    : outcome BloomEvent :=
  if (length series =? 0)%nat then Returns emptyDetection else
  let values := smoothedValues in
  let sorted := sort_numeric values in
  let p10 := at_Z sorted (percentile_index 0.10 (length sorted)) in
  let p90 := at_Z sorted (percentile_index 0.90 (length sorted)) in
  let threshold := p10 + 0.4 * (p90 - p10) in
  let onsetIdx := onsetIdx_of values threshold in
  let peakIdx := peakIdx_of values in
  let endIdx := endIdx_of values threshold peakIdx in
  onsetDate <- date_at series onsetIdx ;;
  let peakDate := date_at_opt series peakIdx in
  endDate <- date_at series endIdx ;;
  let durationDays := duration_of onsetDate endDate in
  let spread := JS.Math_max 0 (p90 - p10) in
  let completeness := completeness_of onsetDate peakDate endDate in
  let confidence :=
    JS.Math_max 0.5 (JS.Math_min 0.95 (0.5 + spread * 0.8)) * completeness in
  Returns {| onsetDate := onsetDate; peakDate := peakDate;
             endDate := endDate; peakValue := nth_error values peakIdx;
             durationDays := durationDays; confidence := confidence |}.

(** The parts of [detectBloom] that the statements name: the two
    percentiles, the threshold, the spread and the clamped confidence. *)
Definition p10_of (values : list Q) : Q :=
  let sorted := sort_numeric values in
  at_Z sorted (percentile_index 0.10 (length sorted)).

Definition p90_of (values : list Q) : Q :=
  let sorted := sort_numeric values in
  at_Z sorted (percentile_index 0.90 (length sorted)).

Definition threshold_of (values : list Q) : Q :=
  p10_of values + 0.4 * (p90_of values - p10_of values).

Definition spread_of (values : list Q) : Q :=
  JS.Math_max 0 (p90_of values - p10_of values).

Definition clamp_confidence (spread : Q) : Q :=
  JS.Math_max 0.5 (JS.Math_min 0.95 (0.5 + spread * 0.8)).

(** [dayOfYear(dateStr)]: days since the last day of the year before;
    [getFullYear] is the year of the date on a host whose clock is UTC. *)
Definition dayOfYear (d : ISODate) : Z :=
  let t := Date_parse d in
  let start := Date_of (year d) 0 0 in
  JS.Math_floor (inject_Z (t - start) / inject_Z ms_per_day).

(** ** YearlyAggregator: the body of the /api/phenology handler *)

Record YearlyRecord : Type := mkYearlyRecord {
  record_year : Z;
  onset_date : option ISODate;
  peak_date : option ISODate;
  end_date : option ISODate;
  peak_value : option Q;
  duration_days : option Q;
  record_confidence : Q
}.

Record Summary : Type := mkSummary {
  num_years : nat;
  years_with_bloom : nat;
  median_peak_day_of_year : option Z
}.

(** The [location] and [index_type] fields repeat the request and are
    left out. *)
Record Payload : Type := mkPayload {
  years : list YearlyRecord;
  summary : Summary
}.

Inductive response : Type :=
| Status (code : Z) (error : string)
| Json (payload : Payload).

(** The result of [parseInt]: an integer, or [None] for NaN. *)
Definition parsed_int : Type := option Z.

(** [a < b] on parsed integers; every comparison with NaN is false. *)
Definition int_ltb (a b : parsed_int) : bool :=
  match a, b with
  | Some x, Some y => (x <? y)%Z
  | _, _ => false
  end.

(** The values taken by [year] in [for (year = sy; year <= ey; year++)].
    The counter of the source is a double: [year++] adds 1 exactly as long
    as the years are below [2^53] in absolute value. *)
Definition year_loop (sy ey : parsed_int) : list Z :=
  match sy, ey with
  | Some s, Some e => JS.zupto s e
  | _, _ => []
  end.

Definition record_of (y : Z) (detection : BloomEvent) : YearlyRecord :=
  {| record_year := y;
     onset_date := onsetDate detection;
     peak_date := peakDate detection;
     end_date := endDate detection;
     peak_value := peakValue detection;
     duration_days := durationDays detection;
     record_confidence := confidence detection |}.

(** [source y] is the series that [getMultiSourceVegetationData] returns
    for the year [y], from January 1st to December 31st. *)
Fixpoint per_year (source : Z -> list Sample) (ys : list Z)
    : outcome (list YearlyRecord) :=
  match ys with
  | [] => Returns []
  | y :: rest =>
      let series := source y in
      let smoothed := movingAverage (map value series) 5 in
      detection <- detectBloom series smoothed ;;
      records <- per_year source rest ;;
      Returns (record_of y detection :: records)
  end.

Definition withPeak_of (perYear : list YearlyRecord) : list YearlyRecord :=
  filter (fun y => is_some (peak_date y)) perYear.

(** [withPeak.map(y => dayOfYear(y.peak_date))]; the filter before it has
    kept the records with a peak date only. *)
Definition peakDoys_of (withPeak : list YearlyRecord) : list Z :=
  flat_map (fun y => match peak_date y with
                     | Some d => [dayOfYear d]
                     | None => []
                     end) withPeak.

Definition medianPeakDoy_of (peakDoys : list Z) : option Z :=
  if (length peakDoys =? 0)%nat then None
  else Some (JS.Math_round
               (inject_Z (nth (length peakDoys / 2) (JS.sort Z.leb peakDoys) 0%Z))).

Definition payload_of (perYear : list YearlyRecord) : Payload :=
  let withPeak := withPeak_of perYear in
  let peakDoys := peakDoys_of withPeak in
  {| years := perYear;
     summary := {| num_years := length perYear;
                   years_with_bloom := length withPeak;
                   median_peak_day_of_year := medianPeakDoy_of peakDoys |} |}.

(** The aggregation proper: the yearly loop and the summary that the
    handler builds when the cache holds nothing for the request.  An
    exception of the detector leaves the loop. *)
Definition aggregate_years (source : Z -> list Sample) (sy ey : parsed_int)
    : outcome Payload :=
  perYear <- per_year source (year_loop sy ey) ;;
  Returns (payload_of perYear).

(** The handler from the parsed years on, that is, for a request that
    carries [lat], [lon], [start_year] and [end_year] (a request without
    one of them is answered with status 400 before the years are parsed):
    [sy] and [ey] are [parseInt(start_year)] and [parseInt(end_year)],
    [cached] is what [cache.get] holds for the request.  An exception ends
    in the [catch] clause. *)
Definition phenology (source : Z -> list Sample) (sy ey : parsed_int)
    (cached : option Payload) : response :=
  if int_ltb ey sy then Status 400 "end_year must be >= start_year" else
  match cached with
  | Some payload => Json payload
  | None =>
      match per_year source (year_loop sy ey) with
      | Returns perYear => Json (payload_of perYear)
      | Throws _ => Status 500 "Failed to compute phenology"
      end
  end.

(** ** TrendAnalyzer: [analyzeTrends] and [calculateLinearTrend] *)

Definition of_nat (n : nat) : Q := inject_Z (Z.of_nat n).

Definition calculateLinearTrend (values : list Q) : Q :=
  let n := of_nat (length values) in
  let sumX := (n * (n - 1)) / 2 in
  let sumY := JS.reduce (fun sum val i => sum + val * of_nat i) values 0 in
  let sumXY := JS.reduce (fun sum val i => sum + val * of_nat i) values 0 in
  let sumX2 := JS.reduce (fun sum (val : Q) i => sum + of_nat i * of_nat i)
                         values 0 in
  (n * sumXY - sumX * sumY) / (n * sumX2 - sumX * sumX).

(** The decimal digits of a natural number. *)
Definition decimal (n : Z) : string :=
  NilZero.string_of_uint (N.to_uint (Z.to_N n)).

Fixpoint zeros (k : nat) : string :=
  match k with
  | O => EmptyString
  | S k' => String "0" (zeros k')
  end.

(** [x.toFixed(f)] for [f > 0] and [|x| < 1e21]: the integer nearest to
    [x * 10^f] (the larger one at a tie), written with [f] decimals.  The
    tie is that of the rational [x]; a double that prints as a tie lies
    just beside it and is rounded to its side. *)
Definition toFixed_nonneg (x : Q) (f : nat) : string :=
  let n := Qfloor (x * inject_Z (10 ^ Z.of_nat f) + (1 # 2)) in
  let m := decimal n in
  let m := append (zeros (S f - String.length m)) m in
  let k := String.length m in
  append (substring 0 (k - f) m) (append "." (substring (k - f) f m)).

Definition toFixed (x : Q) (f : nat) : string :=
  if JS.ltb x 0 then append "-" (toFixed_nonneg (- x) f)
  else toFixed_nonneg x f.

Inductive TrendResult : Type :=
| InsufficientData (trend : string) (trend_confidence : Q)
| Trend (direction : string) (magnitude : string) (trend_confidence : Q)
        (significance : string).

(** [random] is the value drawn by [Math.random()]. *)
Definition analyzeTrends (random : Q) (data : list Sample) : TrendResult :=
  if (length data <? 2)%nat then InsufficientData "Insufficient data" 0 else
  let values := map value data in
  let trend := calculateLinearTrend values in
  Trend (if JS.gtb trend 0 then "Increasing" else "Decreasing")
        (toFixed (JS.Math_abs trend) 4)
        (0.85 + random * 0.1)
        (if JS.gtb trend 0.01 then "Significant" else "Not significant").

(** ** AnomalyDetector: [detectAnomalies] *)

Record AnomalyReport : Type := mkAnomalyReport {
  count : nat;
  dates : list ISODate;
  severity : string;
  potential_causes : list string
}.

(** [Math_sqrt] stands for [Math.sqrt], which has no exact counterpart on
    the rationals. *)
Definition detectAnomalies (Math_sqrt : Q -> Q) (data : list Sample)
    : AnomalyReport :=
  let values := map value data in
  let mean := JS.reduce (fun sum val (_ : nat) => sum + val) values 0
              / of_nat (length values) in
  let stdDev :=
    Math_sqrt (JS.reduce (fun sum val (_ : nat) =>
                            sum + JS.Math_pow (val - mean) 2) values 0
               / of_nat (length values)) in
  let anomalies :=
    filter (fun d => JS.gtb (JS.Math_abs (value d - mean)) (2 * stdDev)) data in
  {| count := length anomalies;
     dates := map date anomalies;
     severity := if (0 <? length anomalies)%nat
                 then "Moderate" else "None detected";
     potential_causes :=
       ["Weather events"; "Human activity"; "Natural disturbances"] |}.

(** The mean and the argument of [Math.sqrt] in [detectAnomalies], the
    population variance, as the statements name them. *)
Definition mean_of (values : list Q) : Q :=
  JS.reduce (fun sum val (_ : nat) => sum + val) values 0
  / of_nat (length values).

Definition variance_of (values : list Q) : Q :=
  let mean := mean_of values in
  JS.reduce (fun sum val (_ : nat) => sum + JS.Math_pow (val - mean) 2)
            values 0
  / of_nat (length values).

(** A square root on the rationals: exact on squares, and otherwise the
    root truncated to a multiple of [2^-52 / denominator]. *)
Definition sqrt_down (x : Q) : Q :=
  let scale := (2 ^ 52)%positive in
  Z.sqrt (Qnum x * Zpos (Qden x) * Zpos (scale * scale)) # (Qden x * scale).

(** ** Reference notions used in the statements *)

(** The part of [values] at the indices [i - half .. i + half] that exist. *)
Definition window (values : list Q) (i : nat) (half : Z) : list Q :=
  let lo := Z.to_nat (Z.max 0 (Z.of_nat i - half)) in
  let hi := Z.to_nat (Z.min (Z.of_nat (length values) - 1) (Z.of_nat i + half)) in
  firstn (hi - lo + 1) (skipn lo values).

Definition arithmetic_mean (l : list Q) : Q :=
  fold_right Qplus 0 l / of_nat (length l).

(** The least-squares slope of the values against their index
    0 .. n-1, with the plain sum of the values for the sum of y. *)
Definition ols_slope (values : list Q) : Q :=
  let n := of_nat (length values) in
  let sumX := fold_right Qplus 0 (map of_nat (seq 0 (length values))) in
  let sumY := fold_right Qplus 0 values in
  let sumXY := fold_right Qplus 0
                 (map (fun p => of_nat (fst p) * snd p)
                      (combine (seq 0 (length values)) values)) in
  let sumX2 := fold_right Qplus 0
                 (map (fun i => of_nat i * of_nat i) (seq 0 (length values))) in
  (n * sumXY - sumX * sumY) / (n * sumX2 - sumX * sumX).

(** The crossing "smoothed[i+1] < threshold <= smoothed[i]" of the
    specification, and the first index of the descending scan that has
    it. *)
Definition falling_crossing (values : list Q) (threshold : Q) (i : nat)
    : Prop :=
  JS.get values (i + 1) < threshold /\ threshold <= JS.get values i.

Definition first_falling (values : list Q) (threshold : Q) (peakIdx i : nat)
    : Prop :=
  (peakIdx < i)%nat /\ (i + 2 <= length values)%nat
  /\ falling_crossing values threshold i
  /\ forall k : nat, (i < k)%nat -> (k + 2 <= length values)%nat ->
       ~ falling_crossing values threshold k.

(** "endDate minus onsetDate in days". *)
Definition days_between (onset finish : ISODate) : Q :=
  inject_Z (Date_parse finish - Date_parse onset) / inject_Z ms_per_day.

(** [idx >= 0 ? series[idx].date : null] when the read is in range. *)
Definition lookup_date (series : list Sample) (idx : option nat)
    : option ISODate :=
  match idx with
  | Some i => date_at_opt series i
  | None => None
  end.

(** The event built for a series that is not empty, the smoothed values
    having the length of the series: no read fails. *)
Definition bloom_event (series : list Sample) (values : list Q) : BloomEvent :=
  let threshold := threshold_of values in
  let peakIdx := peakIdx_of values in
  let onsetDate := lookup_date series (onsetIdx_of values threshold) in
  let peakDate := date_at_opt series peakIdx in
  let endDate := lookup_date series (endIdx_of values threshold peakIdx) in
  {| onsetDate := onsetDate; peakDate := peakDate; endDate := endDate;
     peakValue := nth_error values peakIdx;
     durationDays := duration_of onsetDate endDate;
     confidence := clamp_confidence (spread_of values)
                   * completeness_of onsetDate peakDate endDate |}.

(** ** Sample inputs *)

(** Daily samples from 2024-01-01 on, and three small series. *)
Definition daily (raw : list Q) : list Sample :=
  map (fun p => {| date := mkDate 2024 1 (Z.of_nat (fst p));
                   value := snd p; sample_confidence := 0.9 |})
      (combine (seq 1 (length raw)) raw).

Definition hump_series : list Sample :=
  daily [0; 0; 0; 60; 60; 60; 60; 60; 0; 0; 0].

Definition early_peak_series : list Sample :=
  daily [90; 90; 90; 0; 0; 0; 0; 0; 50; 50; 50].

Definition single_series : list Sample := daily [0.5].

Definition smoothed_of (series : list Sample) : list Q :=
  movingAverage (map value series) 5.

(** Three yearly records whose peak dates are day 200 of 2021, day 300 of
    2022 and day 100 of 2023. *)
Definition three_years : list YearlyRecord :=
  [ {| record_year := 2021; onset_date := None;
       peak_date := Some (mkDate 2021 7 19); end_date := None;
       peak_value := Some 0.8; duration_days := None;
       record_confidence := 0.3 |};
    {| record_year := 2022; onset_date := None;
       peak_date := Some (mkDate 2022 10 27); end_date := None;
       peak_value := Some 0.8; duration_days := None;
       record_confidence := 0.3 |};
    {| record_year := 2023; onset_date := None;
       peak_date := Some (mkDate 2023 4 10); end_date := None;
       peak_value := Some 0.8; duration_days := None;
       record_confidence := 0.3 |} ].

Definition ramp : list Sample := daily [0; 1; 2; 3; 4; 5].

(** ** SeasonalityAnalyzer: [analyzeSeasonality] *)

(** [arr[i] += v] on an array of numbers; an index that is not one of the
    array (the [NaN] of an invalid date) leaves its elements as they
    are. *)
Fixpoint add_at (arr : list Q) (i : nat) (v : Q) : list Q :=
  match arr, i with
  | [], _ => []
  | x :: rest, O => (x + v) :: rest
  | x :: rest, S j => x :: add_at rest j v
  end.

Definition add_at_Z (arr : list Q) (i : Z) (v : Q) : list Q :=
  if (0 <=? i)%Z then add_at arr (Z.to_nat i) v else arr.

(** [new Date(item.date).getMonth()] for a calendar day, zero-based.  The
    day is parsed as midnight UTC and [getMonth] reads it in local time:
    the host clock is taken to be UTC, where the month is the one
    written. *)
Definition getMonth (d : ISODate) : Z := (month d - 1)%Z.

(** [Math.max(...arr)] and [Math.min(...arr)] for an array that is not
    empty (the twelve averages). *)
Definition Math_max_spread (arr : list Q) : Q :=
  match arr with
  | [] => 0
  | x :: rest => fold_left JS.Math_max rest x
  end.

Definition Math_min_spread (arr : list Q) : Q :=
  match arr with
  | [] => 0
  | x :: rest => fold_left JS.Math_min rest x
  end.

(** [arr.indexOf(x)]: the first index holding a number equal to [x];
    [None] is -1. *)
Fixpoint indexOf_from (x : Q) (arr : list Q) (i : nat) : option nat :=
  match arr with
  | [] => None
  | y :: rest => if Qeq_bool y x then Some i else indexOf_from x rest (S i)
  end.

Definition indexOf (arr : list Q) (x : Q) : option nat := indexOf_from x arr 0.

Definition month_names : list string :=
  ["January"; "February"; "March"; "April"; "May"; "June"; "July";
   "August"; "September"; "October"; "November"; "December"].

(** [new Date(2024, m, 1).toLocaleDateString('en-US', { month: 'long' })];
    month -1 is the December before. *)
Definition month_long (m : option nat) : string :=
  match m with
  | Some k => nth (k mod 12) month_names ""
  | None => "December"
  end.

Record SeasonalityProfile : Type := mkSeasonalityProfile {
  peak_month : string;
  trough_month : string;
  seasonal_strength : string;
  pattern_type : string;
  monthly_patterns : list Q
}.

(** One call of the [forEach] callback on [(monthlyData, monthlyCounts)]. *)
Definition season_step (acc : list Q * list Q) (item : Sample)
    : list Q * list Q :=
  let '(monthlyData, monthlyCounts) := acc in
  let month := getMonth (date item) in
  (add_at_Z monthlyData month (value item), add_at_Z monthlyCounts month 1).

Definition monthly_totals (data : list Sample) : list Q * list Q :=
  fold_left season_step data (repeat 0 12, repeat 0 12).

(** [monthlyData.map((sum, index) => ...)]. *)
Definition monthlyAverages_of (data : list Sample) : list Q :=
  let '(monthlyData, monthlyCounts) := monthly_totals data in
  map (fun index =>
         let sum := JS.get monthlyData index in
         if JS.gtb (JS.get monthlyCounts index) 0
         then sum / JS.get monthlyCounts index else 0)
      (seq 0 (length monthlyData)).

Definition analyzeSeasonality (data : list Sample) : SeasonalityProfile :=
  let monthlyAverages := monthlyAverages_of data in
  let peakMonth := indexOf monthlyAverages (Math_max_spread monthlyAverages) in
  let troughMonth := indexOf monthlyAverages (Math_min_spread monthlyAverages) in
  {| peak_month := month_long peakMonth;
     trough_month := month_long troughMonth;
     seasonal_strength := "Strong";
     pattern_type := "Annual cycle";
     monthly_patterns := monthlyAverages |}.

(** ** Predictor: [generatePredictions] *)

(** The calendar day of a day number counted from 1970-01-01: the date
    part of [toISOString()]. *)
Definition civil_from_days (z : Z) : ISODate :=
  let z := (z + 719468)%Z in
  let era := (z / 146097)%Z in
  let doe := (z - era * 146097)%Z in
  let yoe := ((doe - doe / 1460 + doe / 36524 - doe / 146096) / 365)%Z in
  let doy := (doe - (365 * yoe + yoe / 4 - yoe / 100))%Z in
  let mp := ((5 * doy + 2) / 153)%Z in
  let d := (doy - (153 * mp + 2) / 5 + 1)%Z in
  let m := (if mp <? 10 then mp + 3 else mp - 9)%Z in
  let y := (yoe + era * 400)%Z in
  {| year := (if m <=? 2 then y + 1 else y)%Z; month := m; day := d |}.

(** [new Date(ms).toISOString().split('T')[0]]. *)
Definition iso_of_ms (ms : Z) : ISODate := civil_from_days (ms / ms_per_day).

Record Prediction : Type := mkPrediction {
  prediction_date : ISODate;
  predicted_value : string;
  prediction_confidence : Q
}.

(** The early return has neither [methodology] nor [assumptions]. *)
Record PredictionSet : Type := mkPredictionSet {
  predictions : list Prediction;
  overall_confidence : string;
  methodology : option string;
  assumptions : option (list string)
}.

(** [arr.slice(-k)]. *)
Definition slice_last {A : Type} (k : nat) (arr : list A) : list A :=
  skipn (length arr - k) arr.

(** The value clamped into [0, 1] that iteration [i] prints. *)
Definition predictedValue_at (lastValue trend : Q) (i : nat) : Q :=
  JS.Math_max 0 (JS.Math_min 1 (lastValue + trend * of_nat i)).

(** [now] is the value of [Date.now()]. *)
Definition generatePredictions (now : Z) (data : list Sample)
    : PredictionSet :=
  if (length data <? 30)%nat
  then {| predictions := []; overall_confidence := "Low";
          methodology := None; assumptions := None |}
  else
  let recentValues := map value (slice_last 10 data) in
  let trend := calculateLinearTrend recentValues in
  let predictions :=
    map (fun i =>
           let lastValue := JS.get recentValues (length recentValues - 1) in
           let predictedValue := predictedValue_at lastValue trend i in
           {| prediction_date :=
                iso_of_ms (now + Z.of_nat i * 24 * 60 * 60 * 1000);
              predicted_value := toFixed predictedValue 3;
              prediction_confidence :=
                JS.Math_max 0.5 (0.9 - of_nat i * 0.01) |})
        (seq 1 30) in
  {| predictions := predictions; overall_confidence := "Medium";
     methodology := Some "Linear trend extrapolation";
     assumptions := Some ["Current trends continue";
                          "No major disturbances"] |}.

(** ** RecommendationGenerator: [generateRecommendations] *)

(** [trend.direction]; the insufficient-data object has no such field. *)
Definition direction_of (t : TrendResult) : option string :=
  match t with
  | InsufficientData _ _ => None
  | Trend direction _ _ _ => Some direction
  end.

(** [random] is the value drawn by [Math.random()] inside
    [analyzeTrends]. *)
Definition generateRecommendations (random : Q) (data : list Sample)
    : list string :=
  let recommendations := [] in
  let currentValue :=
    match nth_error data (length data - 1) with
    | Some item => value item
    | None => 0
    end in
  let trend := analyzeTrends random data in
  let recommendations :=
    if JS.ltb currentValue 0.3
    then recommendations
         ++ ["Low vegetation detected - consider environmental factors"]
    else recommendations in
  let recommendations :=
    match direction_of trend with
    | Some direction =>
        if String.eqb direction "Decreasing"
        then recommendations
             ++ ["Declining trend observed - investigate causes"]
        else recommendations
    | None => recommendations
    end in
  let recommendations :=
    if (length data <? 30)%nat
    then recommendations ++ ["Limited data available - continue monitoring"]
    else recommendations in
  let recommendations :=
    recommendations ++ ["Monitor weather conditions for correlation"] in
  recommendations ++ ["Consider seasonal variations in analysis"].

(** ** Further reference notions *)

(** The values of the samples that fall in the zero-based month [m]. *)
Definition values_in_month (data : list Sample) (m : nat) : list Q :=
  map value (filter (fun item => (getMonth (date item) =? Z.of_nat m)%Z) data).

(** The sum of [i * values[i]] over the indices of [values]. *)
Definition weighted_sum (values : list Q) : Q :=
  fold_right Qplus 0
    (map (fun p => of_nat (fst p) * snd p)
         (combine (seq 0 (length values)) values)).

(** The Gregorian leap years, and the days of a year before the first of
    month [m]. *)
Definition is_leap (y : Z) : bool :=
  (((y mod 4 =? 0) && negb (y mod 100 =? 0)) || (y mod 400 =? 0))%Z%bool.

Definition days_before_month (leap : bool) (m : Z) : Z :=
  let shift := (if leap then 1 else 0)%Z in
  nth (Z.to_nat (m - 1))
      [0; 31; 59 + shift; 90 + shift; 120 + shift; 151 + shift;
       181 + shift; 212 + shift; 243 + shift; 273 + shift; 304 + shift;
       334 + shift]%Z 0%Z.

(** The crossing "smoothed[i-1] < threshold <= smoothed[i]" of the onset
    loop, and the first index from 1 on that has it. *)
Definition rising_crossing (values : list Q) (threshold : Q) (i : nat)
    : Prop :=
  JS.get values (i - 1) < threshold /\ threshold <= JS.get values i.

Definition first_rising (values : list Q) (threshold : Q) (i : nat) : Prop :=
  (1 <= i < length values)%nat
  /\ rising_crossing values threshold i
  /\ forall k : nat, (1 <= k < i)%nat -> ~ rising_crossing values threshold k.

(** The invariant of the reduce that looks for the peak: [best] holds the
    first maximum of the values before index [upto]. *)
Definition first_max (values : list Q) (upto best : nat) : Prop :=
  (forall j, (j < upto)%nat -> JS.get values j <= JS.get values best)
  /\ (forall j, (j < best)%nat -> JS.get values j < JS.get values best).

(** The record that the yearly loop pushes for the year [y]. *)
Definition year_record (source : Z -> list Sample) (y : Z) : YearlyRecord :=
  let series := source y in
  record_of y (match series with
               | [] => emptyDetection
               | _ :: _ => bloom_event series
                             (movingAverage (map value series) 5)
               end).

(** [trend.significance]. *)
Definition significance_of (t : TrendResult) : option string :=
  match t with
  | InsufficientData _ _ => None
  | Trend _ _ _ significance => Some significance
  end.

(** ** Numbers as the engine has them

    A JavaScript number is a double.  [movingAverage] and
    [detectAnomalies] are written once more over an arithmetic that is a
    parameter: the same definition is read with exact rationals and with
    doubles. *)

Module Number.

Record arith : Type := mkArith {
  num : Type;
  zero : num;
  add : num -> num -> num;
  sub : num -> num -> num;
  mul : num -> num -> num;
  div : num -> num -> num;
  abs : num -> num;
  sqrt : num -> num;
  gtb : num -> num -> bool;
  of_int : Z -> num
}.

(** The double that holds an integer, exactly up to [2^53]: array lengths
    and element counts. *)
Fixpoint double_of_pos (p : positive) : float :=
  match p with
  | xH => 1%float
  | xO q => (2 * double_of_pos q)%float
  | xI q => (2 * double_of_pos q + 1)%float
  end.

Definition double_of_int (z : Z) : float :=
  match z with
  | Z0 => 0%float
  | Zpos p => double_of_pos p
  | Zneg p => (- double_of_pos p)%float
  end.

(** Doubles: the operations of IEEE 754 binary64, rounding to nearest,
    ties to even; a comparison with NaN is false. *)
Definition double : arith :=
  {| num := float;
     zero := 0%float;
     add := PrimFloat.add;
     sub := PrimFloat.sub;
     mul := PrimFloat.mul;
     div := PrimFloat.div;
     abs := PrimFloat.abs;
     sqrt := PrimFloat.sqrt;
     gtb := fun a b => PrimFloat.ltb b a;
     of_int := double_of_int |}.

(** Exact rationals, with a function of one's choice for [Math.sqrt]. *)
Definition exact (Math_sqrt : Q -> Q) : arith :=
  {| num := Q;
     zero := 0;
     add := Qplus;
     sub := Qminus;
     mul := Qmult;
     div := Qdiv;
     abs := JS.Math_abs;
     sqrt := Math_sqrt;
     gtb := JS.gtb;
     of_int := inject_Z |}.

End Number.

(** [movingAverage] over the arithmetic [N]: the inner loop, then the
    outer one. *)
Definition window_step_on (N : Number.arith) (values : list (Number.num N))
    (acc : Number.num N * Z) (j : Z) : Number.num N * Z :=
  let '(sum, count) := acc in
  if ((0 <=? j)%Z && (j <? Z.of_nat (length values))%Z)%bool
  then (Number.add N sum (nth (Z.to_nat j) values (Number.zero N)),
        (count + 1)%Z)
  else (sum, count).

Definition window_acc_on (N : Number.arith) (values : list (Number.num N))
    (i half : Z) : Number.num N * Z :=
  fold_left (window_step_on N values) (JS.zupto (i - half) (i + half))
            (Number.zero N, 0%Z).

Definition movingAverage_on (N : Number.arith) (values : list (Number.num N))
    (windowSize : Z) : list (Number.num N) :=
  let half := (windowSize / 2)%Z in
  map (fun i =>
         let '(sum, count) := window_acc_on N values (Z.of_nat i) half in
         if (count =? 0)%Z then nth i values (Number.zero N)
         else Number.div N sum (Number.of_int N count))
      (seq 0 (length values)).

(** The part of [values] at the indices [i - half .. i + half] that exist,
    for values of any kind. *)
Definition window_of {A : Type} (values : list A) (i : nat) (half : Z)
    : list A :=
  let lo := Z.to_nat (Z.max 0 (Z.of_nat i - half)) in
  let hi := Z.to_nat (Z.min (Z.of_nat (length values) - 1) (Z.of_nat i + half)) in
  firstn (hi - lo + 1) (skipn lo values).

(** A data item whose value is a number of any kind: [{ date, value }]. *)
Record Reading (A : Type) : Type := mkReading {
  read_date : ISODate;
  read_value : A
}.

Arguments mkReading {A} _ _.
Arguments read_date {A} _.
Arguments read_value {A} _.

Definition reading_of (s : Sample) : Reading Q :=
  mkReading (date s) (value s).

(** The mean and the standard deviation that [detectAnomalies] computes;
    [Math.pow(x, 2)] is the product [x * x]. *)
Definition mean_on (N : Number.arith) (values : list (Number.num N))
    : Number.num N :=
  Number.div N
    (JS.reduce (fun sum val (_ : nat) => Number.add N sum val) values
               (Number.zero N))
    (Number.of_int N (Z.of_nat (length values))).

Definition stdDev_on (N : Number.arith) (values : list (Number.num N))
    : Number.num N :=
  let mean := mean_on N values in
  Number.sqrt N
    (Number.div N
       (JS.reduce (fun sum val (_ : nat) =>
                     Number.add N sum
                       (Number.mul N (Number.sub N val mean)
                                     (Number.sub N val mean)))
                  values (Number.zero N))
       (Number.of_int N (Z.of_nat (length values)))).

(** [detectAnomalies] over the arithmetic [N]. *)
Definition detectAnomalies_on (N : Number.arith)
    (data : list (Reading (Number.num N))) : AnomalyReport :=
  let values := map read_value data in
  let mean := mean_on N values in
  let stdDev := stdDev_on N values in
  let anomalies :=
    filter (fun d =>
              Number.gtb N
                (Number.abs N (Number.sub N (read_value d) mean))
                (Number.mul N (Number.of_int N 2) stdDev))
           data in
  {| count := length anomalies;
     dates := map read_date anomalies;
     severity := if (0 <? length anomalies)%nat
                 then "Moderate" else "None detected";
     potential_causes :=
       ["Weather events"; "Human activity"; "Natural disturbances"] |}.


Definition constant_doubles : list float := repeat 0.7%float 4.


(** * Properties *)

(** ** Known values *)

(** Known values of the calendar functions and of the number printer. *)
Example Date_parse_known :
  Date_parse (mkDate 1970 1 1) = 0%Z
  /\ Date_parse (mkDate 2000 2 29) = 951782400000%Z
  /\ Date_parse (mkDate 2024 3 1) = 1709251200000%Z.
Proof. repeat split. Qed.

Example dayOfYear_known :
  dayOfYear (mkDate 2024 1 1) = 1%Z
  /\ dayOfYear (mkDate 2024 12 31) = 366%Z
  /\ dayOfYear (mkDate 2023 12 31) = 365%Z
  /\ dayOfYear (mkDate 2021 7 19) = 200%Z.
Proof. repeat split. Qed.

(** A year from 0 to 99 is read as 1900 + y by [new Date(y, 0, 0)]: for
    a date of the year 99 the days are counted from the last day of
    1998. *)
Example dayOfYear_two_digit_year :
  dayOfYear (mkDate 99 3 1) = (-693900)%Z
  /\ dayOfYear (mkDate 100 3 1) = 60%Z.
Proof. split; reflexivity. Qed.

Example toFixed_known :
  toFixed 1 4 = "1.0000"
  /\ toFixed (1 # 3) 4 = "0.3333"
  /\ toFixed 0.00005 4 = "0.0001"
  /\ toFixed 1234.5 2 = "1234.50".
Proof. repeat split. Qed.

(** The smoothed values and the thresholds of the sample series. *)
Example smoothed_known :
  Forall2 Qeq (smoothed_of hump_series)
    [0; 15; 24; 36; 48; 60; 48; 36; 24; 15; 0]
  /\ threshold_of (smoothed_of hump_series) == 19.2
  /\ Forall2 Qeq (smoothed_of early_peak_series)
       [90; 67.5; 54; 36; 18; 0; 10; 20; 30; 37.5; 50]
  /\ threshold_of (smoothed_of early_peak_series) == 33.
Proof.
  repeat split; try reflexivity; vm_compute; repeat constructor.
Qed.

(** ** Comparisons *)

Lemma ltb_spec (a b : Q) : JS.ltb a b = true <-> a < b.
Proof.
  unfold JS.ltb. rewrite Qlt_alt.
  destruct (a ?= b); split; intro H; congruence.
Qed.

Lemma leb_spec (a b : Q) : JS.leb a b = true <-> a <= b.
Proof.
  unfold JS.leb. rewrite Qle_alt.
  destruct (a ?= b); split; intro H; congruence.
Qed.

Lemma ltb_false (a b : Q) : JS.ltb a b = false <-> b <= a.
Proof.
  rewrite <- not_true_iff_false, ltb_spec. split.
  - apply Qnot_lt_le.
  - apply Qle_not_lt.
Qed.

Lemma leb_false (a b : Q) : JS.leb a b = false <-> b < a.
Proof.
  rewrite <- not_true_iff_false, leb_spec. split.
  - apply Qnot_le_lt.
  - apply Qlt_not_le.
Qed.

Lemma Math_max_lub (a b : Q) : a <= JS.Math_max a b /\ b <= JS.Math_max a b.
Proof.
  unfold JS.Math_max. destruct (JS.ltb a b) eqn:E.
  - apply ltb_spec in E. split; [apply Qlt_le_weak; exact E | apply Qle_refl].
  - apply ltb_false in E. split; [apply Qle_refl | exact E].
Qed.

Lemma Math_max_cases (a b : Q) :
  (JS.Math_max a b = a /\ b <= a) \/ (JS.Math_max a b = b /\ a < b).
Proof.
  unfold JS.Math_max. destruct (JS.ltb a b) eqn:E.
  - right. split; [reflexivity | apply ltb_spec; exact E].
  - left. split; [reflexivity | apply ltb_false; exact E].
Qed.

Lemma Math_min_glb (a b : Q) : JS.Math_min a b <= a /\ JS.Math_min a b <= b.
Proof.
  unfold JS.Math_min. destruct (JS.ltb b a) eqn:E.
  - apply ltb_spec in E. split; [apply Qlt_le_weak; exact E | apply Qle_refl].
  - apply ltb_false in E. split; [apply Qle_refl | exact E].
Qed.

(** ** Counting loops *)

Lemma zrange_length (a : Z) (len : nat) : length (JS.zrange a len) = len.
Proof. unfold JS.zrange. now rewrite length_map, length_seq. Qed.

Lemma map_seq_shift {A : Type} (f : nat -> A) (m s n : nat) :
  map f (seq (m + s) n) = map (fun k => f (m + k)%nat) (seq s n).
Proof.
  revert s. induction n as [|n IH]; intro s; simpl; [reflexivity|].
  f_equal. rewrite <- IH. now rewrite Nat.add_succ_r.
Qed.

Lemma zrange_app (a : Z) (m n : nat) :
  JS.zrange a (m + n) = JS.zrange a m ++ JS.zrange (a + Z.of_nat m) n.
Proof.
  unfold JS.zrange. rewrite seq_app, map_app. f_equal.
  rewrite <- (Nat.add_0_r (0 + m)), map_seq_shift.
  apply map_ext. intro k. lia.
Qed.

Lemma zrange_cons (a : Z) (n : nat) :
  JS.zrange a (S n) = a :: JS.zrange (a + 1) n.
Proof.
  unfold JS.zrange. simpl. f_equal; [lia|].
  rewrite <- seq_shift, map_map. apply map_ext. intro k. lia.
Qed.

Lemma zrange_In (a : Z) (len : nat) (j : Z) :
  In j (JS.zrange a len) <-> (a <= j < a + Z.of_nat len)%Z.
Proof.
  unfold JS.zrange. rewrite in_map_iff. split.
  - intros [k [<- Hk]]. apply in_seq in Hk. lia.
  - intros H. exists (Z.to_nat (j - a)). split; [lia|].
    apply in_seq. lia.
Qed.

(** ** Smoother *)

Lemma skipn_nth_cons {A : Type} (l : list A) (k : nat) (d : A) :
  (k < length l)%nat -> skipn k l = nth k l d :: skipn (S k) l.
Proof.
  revert k. induction l as [|x l IH]; intros k H; simpl in H; [lia|].
  destruct k as [|k]; [reflexivity|].
  simpl. apply IH. lia.
Qed.

Lemma window_step_outside (values : list Q) (acc : Q * Z) (j : Z) :
  ~ (0 <= j < Z.of_nat (length values))%Z -> window_step values acc j = acc.
Proof.
  intro H. unfold window_step. destruct acc as [sum count].
  destruct (0 <=? j)%Z eqn:E1; destruct (j <? Z.of_nat (length values))%Z eqn:E2;
    simpl; try reflexivity.
  exfalso. apply H. split; [apply Z.leb_le | apply Z.ltb_lt]; assumption.
Qed.

Lemma window_fold_outside (values : list Q) (js : list Z) (acc : Q * Z) :
  Forall (fun j => ~ (0 <= j < Z.of_nat (length values))%Z) js ->
  fold_left (window_step values) js acc = acc.
Proof.
  intro H. revert acc. induction H as [|j js Hj _ IH]; intro acc; simpl.
  - reflexivity.
  - rewrite window_step_outside by exact Hj. apply IH.
Qed.

Lemma window_step_inside (values : list Q) (sum : Q) (count : Z) (k : nat) :
  (k < length values)%nat ->
  window_step values (sum, count) (Z.of_nat k)
  = (sum + nth k values 0, (count + 1)%Z).
Proof.
  intro H. unfold window_step, at_Z, JS.get. rewrite Nat2Z.id.
  replace (0 <=? Z.of_nat k)%Z with true by (symmetry; apply Z.leb_le; lia).
  replace (Z.of_nat k <? Z.of_nat (length values))%Z with true
    by (symmetry; apply Z.ltb_lt; lia).
  reflexivity.
Qed.

Lemma window_fold_inside (values : list Q) (m lo : nat) (sum : Q) (count : Z) :
  (lo + m <= length values)%nat ->
  fold_left (window_step values) (JS.zrange (Z.of_nat lo) m) (sum, count)
  = (fold_left Qplus (firstn m (skipn lo values)) sum,
     (count + Z.of_nat m)%Z).
Proof.
  revert lo sum count.
  induction m as [|m IH]; intros lo sum count H.
  - simpl. f_equal. lia.
  - rewrite zrange_cons. cbn [fold_left].
    rewrite window_step_inside by lia.
    rewrite (skipn_nth_cons values lo 0) by lia.
    replace (Z.of_nat lo + 1)%Z with (Z.of_nat (S lo)) by lia.
    rewrite IH by lia. cbn [firstn fold_left]. f_equal. lia.
Qed.

(** The inner loop adds up the window and counts its elements. *)
Lemma window_acc_spec (values : list Q) (i : nat) (half : Z) :
  (i < length values)%nat -> (0 <= half)%Z ->
  window_acc values (Z.of_nat i) half
  = (fold_left Qplus (window values i half) 0,
     Z.of_nat (length (window values i half))).
Proof.
  intros Hi Hh. unfold window_acc, JS.zupto, window.
  set (n := length values) in *.
  set (lo := Z.to_nat (Z.max 0 (Z.of_nat i - half))).
  set (hi := Z.to_nat (Z.min (Z.of_nat n - 1) (Z.of_nat i + half))).
  assert (Hlo : (lo <= i)%nat) by (unfold lo; lia).
  assert (Hhi : (i <= hi < n)%nat) by (unfold hi; lia).
  set (below := Z.to_nat (Z.of_nat lo - (Z.of_nat i - half))).
  set (above := Z.to_nat (Z.of_nat i + half - Z.of_nat hi)).
  set (mid := (hi - lo + 1)%nat).
  replace (Z.to_nat (Z.of_nat i + half - (Z.of_nat i - half) + 1))
    with (below + (mid + above))%nat by (unfold below, above, mid, lo, hi; lia).
  rewrite (zrange_app _ below), (zrange_app _ mid), !fold_left_app.
  replace (Z.of_nat i - half + Z.of_nat below)%Z with (Z.of_nat lo)
    by (unfold below, lo; lia).
  rewrite (window_fold_outside values (JS.zrange (Z.of_nat i - half) below)).
  2:{ apply Forall_forall. intros j Hj. apply zrange_In in Hj.
      unfold below, lo in Hj. lia. }
  rewrite window_fold_inside by (unfold mid; lia).
  rewrite window_fold_outside.
  2:{ apply Forall_forall. intros j Hj. apply zrange_In in Hj.
      unfold above, mid, hi, lo in Hj. fold n. lia. }
  f_equal. rewrite length_firstn, length_skipn. fold n. unfold mid. lia.
Qed.

Lemma nth_map_seq {A : Type} (f : nat -> A) (n i : nat) (d : A) :
  (i < n)%nat -> nth i (map f (seq 0 n)) d = f i.
Proof.
  intro H. rewrite (nth_indep _ d (f 0%nat)) by now rewrite length_map, length_seq.
  rewrite map_nth. now rewrite seq_nth.
Qed.

Lemma movingAverage_length (values : list Q) (windowSize : Z) :
  length (movingAverage values windowSize) = length values.
Proof. unfold movingAverage. now rewrite length_map, length_seq. Qed.

Lemma fold_left_Qplus (l : list Q) (a : Q) :
  fold_left Qplus l a == a + fold_right Qplus 0 l.
Proof.
  revert a. induction l as [|x l IH]; intro a; simpl.
  - ring.
  - rewrite IH. ring.
Qed.

Lemma window_nonempty (values : list Q) (i : nat) (half : Z) :
  (i < length values)%nat -> (0 <= half)%Z ->
  (0 < length (window values i half))%nat.
Proof.
  intros Hi Hh. unfold window. rewrite length_firstn, length_skipn. lia.
Qed.

Lemma window_incl (values : list Q) (i : nat) (half : Z) (x : Q) :
  In x (window values i half) -> In x values.
Proof.
  unfold window. intro H.
  set (lo := Z.to_nat (Z.max 0 (Z.of_nat i - half))) in *.
  rewrite <- (firstn_skipn lo values). apply in_or_app. right.
  erewrite <- firstn_skipn. apply in_or_app. left. exact H.
Qed.

Lemma of_nat_pos (n : nat) : (0 < n)%nat -> 0 < of_nat n.
Proof.
  intro H. unfold of_nat. change 0 with (inject_Z 0).
  rewrite <- Zlt_Qlt. lia.
Qed.

Lemma of_nat_S (n : nat) : of_nat (S n) == of_nat n + 1.
Proof.
  unfold of_nat. rewrite Nat2Z.inj_succ. unfold Z.succ.
  rewrite inject_Z_plus. reflexivity.
Qed.

Lemma sum_constant (l : list Q) (v : Q) :
  Forall (fun x => x = v) l -> fold_right Qplus 0 l == of_nat (length l) * v.
Proof.
  induction 1 as [|x l Hx _ IH].
  - simpl. unfold of_nat. simpl. ring.
  - cbn [fold_right length]. rewrite IH, of_nat_S. subst x. ring.
Qed.

Lemma mean_constant (l : list Q) (v : Q) :
  Forall (fun x => x = v) l -> (0 < length l)%nat -> arithmetic_mean l == v.
Proof.
  intros Hl Hn. unfold arithmetic_mean. rewrite (sum_constant l v Hl).
  apply of_nat_pos in Hn. field. intro E. rewrite E in Hn.
  exact (Qlt_irrefl 0 Hn).
Qed.

(** The value the smoother stores at a valid index. *)
Lemma movingAverage_nth (values : list Q) (windowSize : Z) (i : nat) :
  (0 <= windowSize)%Z -> (i < length values)%nat ->
  nth i (movingAverage values windowSize) 0
  == arithmetic_mean (window values i (windowSize / 2)).
Proof.
  intros Hw Hi. unfold movingAverage.
  rewrite nth_map_seq by exact Hi.
  assert (Hh : (0 <= windowSize / 2)%Z) by (apply Z.div_pos; lia).
  rewrite window_acc_spec by assumption.
  pose proof (window_nonempty values i (windowSize / 2) Hi Hh) as Hn.
  destruct (Z.of_nat (length (window values i (windowSize / 2))) =? 0)%Z eqn:E.
  - apply Z.eqb_eq in E. lia.
  - unfold arithmetic_mean, of_nat. rewrite fold_left_Qplus.
    apply Qdiv_comp; [ring | reflexivity].
Qed.

(** The same facts for the smoother over any arithmetic. *)

Lemma movingAverage_on_exact (Math_sqrt : Q -> Q) (values : list Q)
    (windowSize : Z) :
  movingAverage_on (Number.exact Math_sqrt) values windowSize
  = movingAverage values windowSize.
Proof. reflexivity. Qed.

Lemma window_of_rationals (values : list Q) (i : nat) (half : Z) :
  window_of values i half = window values i half.
Proof. reflexivity. Qed.

Lemma window_fold_on_outside (N : Number.arith)
    (values : list (Number.num N)) (js : list Z) (acc : Number.num N * Z) :
  Forall (fun j => ~ (0 <= j < Z.of_nat (length values))%Z) js ->
  fold_left (window_step_on N values) js acc = acc.
Proof.
  intro H. revert acc. induction H as [|j js Hj _ IH]; intro acc; simpl.
  - reflexivity.
  - rewrite <- (IH acc) at 2. f_equal.
    unfold window_step_on. destruct acc as [sum count].
    destruct (0 <=? j)%Z eqn:E1;
      destruct (j <? Z.of_nat (length values))%Z eqn:E2;
      simpl; try reflexivity.
    exfalso. apply Hj. split; [apply Z.leb_le | apply Z.ltb_lt]; assumption.
Qed.

Lemma window_fold_on_inside (N : Number.arith)
    (values : list (Number.num N)) (m lo : nat) (sum : Number.num N)
    (count : Z) :
  (lo + m <= length values)%nat ->
  fold_left (window_step_on N values) (JS.zrange (Z.of_nat lo) m) (sum, count)
  = (fold_left (Number.add N) (firstn m (skipn lo values)) sum,
     (count + Z.of_nat m)%Z).
Proof.
  revert lo sum count.
  induction m as [|m IH]; intros lo sum count H.
  - simpl. f_equal. lia.
  - rewrite zrange_cons. cbn [fold_left].
    replace (window_step_on N values (sum, count) (Z.of_nat lo))
      with (Number.add N sum (nth lo values (Number.zero N)), (count + 1)%Z).
    2:{ unfold window_step_on. rewrite Nat2Z.id.
        replace (0 <=? Z.of_nat lo)%Z with true
          by (symmetry; apply Z.leb_le; lia).
        replace (Z.of_nat lo <? Z.of_nat (length values))%Z with true
          by (symmetry; apply Z.ltb_lt; lia).
        reflexivity. }
    rewrite (skipn_nth_cons values lo (Number.zero N)) by lia.
    replace (Z.of_nat lo + 1)%Z with (Z.of_nat (S lo)) by lia.
    rewrite IH by lia. cbn [firstn fold_left]. f_equal. lia.
Qed.

(** The inner loop adds up the window from left to right and counts its
    elements, in any arithmetic. *)
Lemma window_acc_on_spec (N : Number.arith) (values : list (Number.num N))
    (i : nat) (half : Z) :
  (i < length values)%nat -> (0 <= half)%Z ->
  window_acc_on N values (Z.of_nat i) half
  = (fold_left (Number.add N) (window_of values i half) (Number.zero N),
     Z.of_nat (length (window_of values i half))).
Proof.
  intros Hi Hh. unfold window_acc_on, JS.zupto, window_of.
  set (n := length values) in *.
  set (lo := Z.to_nat (Z.max 0 (Z.of_nat i - half))).
  set (hi := Z.to_nat (Z.min (Z.of_nat n - 1) (Z.of_nat i + half))).
  assert (Hlo : (lo <= i)%nat) by (unfold lo; lia).
  assert (Hhi : (i <= hi < n)%nat) by (unfold hi; lia).
  set (below := Z.to_nat (Z.of_nat lo - (Z.of_nat i - half))).
  set (above := Z.to_nat (Z.of_nat i + half - Z.of_nat hi)).
  set (mid := (hi - lo + 1)%nat).
  replace (Z.to_nat (Z.of_nat i + half - (Z.of_nat i - half) + 1))
    with (below + (mid + above))%nat by (unfold below, above, mid, lo, hi; lia).
  rewrite (zrange_app _ below), (zrange_app _ mid), !fold_left_app.
  replace (Z.of_nat i - half + Z.of_nat below)%Z with (Z.of_nat lo)
    by (unfold below, lo; lia).
  rewrite (window_fold_on_outside N values (JS.zrange (Z.of_nat i - half) below)).
  2:{ apply Forall_forall. intros j Hj. apply zrange_In in Hj.
      unfold below, lo in Hj. lia. }
  rewrite window_fold_on_inside by (unfold mid; lia).
  rewrite window_fold_on_outside.
  2:{ apply Forall_forall. intros j Hj. apply zrange_In in Hj.
      unfold above, mid, hi, lo in Hj. fold n. lia. }
  f_equal. rewrite length_firstn, length_skipn. fold n. unfold mid. lia.
Qed.

Lemma window_of_nonempty {A : Type} (values : list A) (i : nat) (half : Z) :
  (i < length values)%nat -> (0 <= half)%Z ->
  (0 < length (window_of values i half))%nat.
Proof.
  intros Hi Hh. unfold window_of. rewrite length_firstn, length_skipn. lia.
Qed.

Lemma movingAverage_on_length (N : Number.arith)
    (values : list (Number.num N)) (windowSize : Z) :
  length (movingAverage_on N values windowSize) = length values.
Proof. unfold movingAverage_on. now rewrite length_map, length_seq. Qed.

(** The value the smoother stores at a valid index, in any arithmetic:
    the sum of the window divided by the number of its elements. *)
Lemma movingAverage_on_nth (N : Number.arith) (values : list (Number.num N))
    (windowSize : Z) (i : nat) :
  (0 <= windowSize)%Z -> (i < length values)%nat ->
  nth i (movingAverage_on N values windowSize) (Number.zero N)
  = Number.div N
      (fold_left (Number.add N) (window_of values i (windowSize / 2))
                 (Number.zero N))
      (Number.of_int N
         (Z.of_nat (length (window_of values i (windowSize / 2))))).
Proof.
  intros Hw Hi. unfold movingAverage_on.
  rewrite nth_map_seq by exact Hi.
  assert (Hh : (0 <= windowSize / 2)%Z) by (apply Z.div_pos; lia).
  rewrite window_acc_on_spec by assumption.
  pose proof (window_of_nonempty values i (windowSize / 2) Hi Hh) as Hn.
  destruct (Z.of_nat (length (window_of values i (windowSize / 2))) =? 0)%Z
    eqn:E; [|reflexivity].
  apply Z.eqb_eq in E. lia.
Qed.

(** In exact arithmetic a constant series is left as it is. *)
Lemma movingAverage_constant (windowSize : Z) (v : Q) (n i : nat) :
  (0 <= windowSize)%Z -> (i < n)%nat ->
  nth i (movingAverage (repeat v n) windowSize) 0 == v.
Proof.
  intros Hw Hi.
  assert (Hlen : (i < length (repeat v n))%nat) by now rewrite repeat_length.
  rewrite movingAverage_nth by assumption.
  apply mean_constant.
  - apply Forall_forall. intros x Hx. apply window_incl in Hx.
    now apply repeat_spec in Hx.
  - apply window_nonempty; [assumption | apply Z.div_pos; lia].
Qed.

(** C8, as the code has it.  With a window size that is not negative, odd
    or not, and in whatever arithmetic the numbers are computed (that of
    doubles included), the smoother keeps the length of its input, and at
    every index it stores the sum, added up from left to right starting
    from 0, of the input over the window [i - floor(w/2), i + floor(w/2)]
    cut down to the indices that exist (nothing is added at the borders),
    divided by the number of these indices; the empty series is mapped to
    the empty series.  In exact arithmetic that quotient is the arithmetic
    mean, and a series that is constantly [v] is mapped to [v] at every
    index. *)
Theorem movingAverage_window_quotient (windowSize : Z) :
  (0 <= windowSize)%Z ->
  (forall (N : Number.arith) (values : list (Number.num N)),
      length (movingAverage_on N values windowSize) = length values
      /\ forall i : nat, (i < length values)%nat ->
           (0 < length (window_of values i (windowSize / 2)))%nat
           /\ nth i (movingAverage_on N values windowSize) (Number.zero N)
              = Number.div N
                  (fold_left (Number.add N)
                             (window_of values i (windowSize / 2))
                             (Number.zero N))
                  (Number.of_int N
                     (Z.of_nat
                        (length (window_of values i (windowSize / 2))))))
  /\ (forall N : Number.arith, movingAverage_on N [] windowSize = [])
  /\ (forall (values : list Q) (i : nat), (i < length values)%nat ->
        nth i (movingAverage values windowSize) 0
        == arithmetic_mean (window values i (windowSize / 2)))
  /\ (forall (v : Q) (n i : nat), (i < n)%nat ->
        nth i (movingAverage (repeat v n) windowSize) 0 == v).
Proof.
  intro Hw. split; [|split; [|split]].
  - intros N values. split; [apply movingAverage_on_length|].
    intros i Hi. split.
    + apply window_of_nonempty; [assumption | apply Z.div_pos; lia].
    + now apply movingAverage_on_nth.
  - reflexivity.
  - intros values i Hi. now apply movingAverage_nth.
  - intros v n i Hi. now apply movingAverage_constant.
Qed.

Lemma movingAverage_window_quotient_witness :
  (0 <= 5)%Z
  /\ length (movingAverage_on Number.double constant_doubles 5) = 4%nat
  /\ nth 0 (movingAverage_on Number.double constant_doubles 5) 0%float
     = (fold_left PrimFloat.add (window_of constant_doubles 0 (5 / 2)) 0
        / Number.double_of_int 3)%float.
Proof.
  split; [lia|].
  destruct (movingAverage_window_quotient 5 ltac:(lia))
    as [H _].
  destruct (H Number.double constant_doubles) as [Hlen Hnth].
  split; [exact Hlen|].
  apply (Hnth 0%nat). simpl. lia.
Defined.

(** C8 fails as stated: on doubles the series 0.7, 0.7, 0.7, 0.7 smoothed
    with window 5 is 0.6999999999999998, 0.7, 0.7, 0.6999999999999998: at
    both ends the sum 0.7 + 0.7 + 0.7 is rounded, and its third is not
    0.7. *)
Lemma movingAverage_constant_not_kept :
  movingAverage_on Number.double constant_doubles 5
  = [0.6999999999999998; 0.7; 0.7; 0.6999999999999998]%float
  /\ nth 0 (movingAverage_on Number.double constant_doubles 5) 0%float
     <> 0.7%float.
Proof.
  split; [vm_compute; reflexivity|].
  intro H.
  assert (E : PrimFloat.eqb
                (nth 0 (movingAverage_on Number.double constant_doubles 5)
                     0%float) 0.7%float = true)
    by (rewrite H; reflexivity).
  vm_compute in E. discriminate E.
Qed.

(** ** BloomDetector *)

Lemma falling_spec (values : list Q) (threshold : Q) (i : nat) :
  falling values threshold i = true <-> falling_crossing values threshold i.
Proof.
  unfold falling, falling_crossing, JS.geb.
  now rewrite andb_true_iff, ltb_spec, leb_spec.
Qed.

Lemma find_descending (f : nat -> bool) (a len : nat) :
  match find f (rev (seq a len)) with
  | Some i => (a <= i < a + len)%nat /\ f i = true
              /\ forall k, (i < k < a + len)%nat -> f k = false
  | None => forall k, (a <= k < a + len)%nat -> f k = false
  end.
Proof.
  induction len as [|len IH].
  - simpl. intros k Hk. lia.
  - rewrite seq_S, rev_app_distr. simpl.
    destruct (f (a + len)%nat) eqn:E.
    + split; [lia|]. split; [exact E|]. intros k Hk. lia.
    + destruct (find f (rev (seq a len))) as [i|].
      * destruct IH as [Hr [Hf Hk]].
        split; [lia|]. split; [exact Hf|].
        intros k Hlt. destruct (Nat.eq_dec k (a + len)) as [->|Hne];
          [exact E | apply Hk; lia].
      * intros k Hlt. destruct (Nat.eq_dec k (a + len)) as [->|Hne];
          [exact E | apply IH; lia].
Qed.

(** What the end loop leaves in [endIdx]. *)
Lemma endIdx_of_spec (values : list Q) (threshold : Q) (peakIdx : nat) :
  match endIdx_of values threshold peakIdx with
  | Some e => exists i, e = (i + 1)%nat
                /\ first_falling values threshold peakIdx i
  | None => forall i, (peakIdx < i)%nat -> (i + 2 <= length values)%nat ->
              ~ falling_crossing values threshold i
  end.
Proof.
  unfold endIdx_of, end_scan.
  pose proof (find_descending (falling values threshold) (S peakIdx)
                (length values - 2 - peakIdx)) as H.
  destruct (find (falling values threshold)
              (rev (seq (S peakIdx) (length values - 2 - peakIdx)))) as [i|].
  - destruct H as [Hr [Hf Hk]]. exists i. split; [reflexivity|].
    unfold first_falling.
    split; [lia|]. split; [lia|]. split; [now apply falling_spec|].
    intros k H1 H2 Hc. apply falling_spec in Hc.
    rewrite Hk in Hc by lia. discriminate.
  - intros i H1 H2 Hc. apply falling_spec in Hc.
    rewrite H in Hc by lia. discriminate.
Qed.

Lemma first_falling_unique (values : list Q) (threshold : Q)
    (peakIdx i j : nat) :
  first_falling values threshold peakIdx i ->
  first_falling values threshold peakIdx j -> i = j.
Proof.
  intros (Hi1 & Hi2 & Hi3 & Hi4) (Hj1 & Hj2 & Hj3 & Hj4).
  destruct (Nat.lt_trichotomy i j) as [H|[H|H]]; [|exact H|].
  - exfalso. exact (Hi4 j H Hj2 Hj3).
  - exfalso. exact (Hj4 i H Hi2 Hi3).
Qed.

Lemma endIdx_of_range (values : list Q) (threshold : Q) (peakIdx e : nat) :
  endIdx_of values threshold peakIdx = Some e -> (e < length values)%nat.
Proof.
  intro H. pose proof (endIdx_of_spec values threshold peakIdx) as S.
  rewrite H in S. destruct S as [i [-> (_ & Hi & _)]]. lia.
Qed.

Lemma onsetIdx_of_range (values : list Q) (threshold : Q) (o : nat) :
  onsetIdx_of values threshold = Some o -> (o < length values)%nat.
Proof.
  unfold onsetIdx_of. intro H. apply find_some in H.
  destruct H as [H _]. apply in_seq in H. lia.
Qed.

Lemma reduce_from_bound {A : Type} (f : nat -> A -> nat -> nat)
    (arr : list A) (i acc : nat) :
  (forall b v k, f b v k = b \/ f b v k = k) ->
  (acc < i + length arr)%nat ->
  (JS.reduce_from f arr i acc < i + length arr)%nat.
Proof.
  intro Hf. revert i acc. induction arr as [|v arr IH]; intros i acc H.
  - exact H.
  - cbn [JS.reduce_from length].
    replace (i + S (length arr))%nat with (S i + length arr)%nat by lia.
    apply IH. cbn [length] in H. destruct (Hf acc v i) as [-> | ->]; lia.
Qed.

(** The peak index is an index of the series. *)
Lemma peakIdx_of_range (values : list Q) :
  (0 < length values)%nat -> (peakIdx_of values < length values)%nat.
Proof.
  intro H. unfold peakIdx_of, JS.reduce.
  apply (reduce_from_bound _ values 0%nat 0%nat); [|exact H].
  intros b v k. destruct (JS.gtb v (JS.get values b)); auto.
Qed.

Lemma date_at_in_range (series : list Sample) (idx : option nat) :
  (forall i, idx = Some i -> (i < length series)%nat) ->
  date_at series idx = Returns (lookup_date series idx).
Proof.
  intro H. destruct idx as [i|]; [|reflexivity].
  unfold date_at, lookup_date, date_at_opt.
  destruct (nth_error series i) eqn:E; [reflexivity|].
  apply nth_error_None in E. specialize (H i eq_refl). lia.
Qed.

Lemma date_at_opt_in_range (series : list Sample) (i : nat) :
  (i < length series)%nat -> date_at_opt series i <> None.
Proof.
  intro H. unfold date_at_opt.
  destruct (nth_error series i) eqn:E; [discriminate|].
  apply nth_error_None in E. lia.
Qed.

Lemma detectBloom_returns (series : list Sample) (values : list Q) :
  length values = length series ->
  detectBloom series values
  = Returns (match series with
             | [] => emptyDetection
             | _ :: _ => bloom_event series values
             end).
Proof.
  intro Hlen. unfold detectBloom.
  destruct series as [|s series]; [reflexivity|].
  cbn [length Nat.eqb].
  rewrite date_at_in_range.
  2:{ intros i Hi. apply onsetIdx_of_range in Hi. now rewrite <- Hlen. }
  cbn [bind].
  rewrite date_at_in_range.
  2:{ intros i Hi. apply endIdx_of_range in Hi. now rewrite <- Hlen. }
  reflexivity.
Qed.

(** C7.  For the empty series, whatever the smoothed values, the detector
    does not throw and returns the neutral event: the three dates, the
    peak value and the duration are null and the confidence is 0.5. *)
Theorem detectBloom_empty_series (smoothedValues : list Q) :
  detectBloom [] smoothedValues
  = Returns {| onsetDate := None; peakDate := None; endDate := None;
               peakValue := None; durationDays := None; confidence := 0.5 |}.
Proof. reflexivity. Qed.

(** C10.  With smoothed values of the length of the series, the detector
    returns an event whose peak date and peak value are null exactly when
    the series is empty: every series that is not empty has both, whether
    or not the onset and the end were found. *)
Theorem detectBloom_peak_present (series : list Sample) (values : list Q) :
  length values = length series ->
  exists ev : BloomEvent,
    detectBloom series values = Returns ev
    /\ (peakDate ev = None <-> series = [])
    /\ (peakValue ev = None <-> series = []).
Proof.
  intro Hlen. rewrite (detectBloom_returns series values Hlen).
  eexists. split; [reflexivity|].
  destruct series as [|s series].
  - split; split; reflexivity.
  - assert (Hpeak : (peakIdx_of values < length values)%nat)
      by (apply peakIdx_of_range; rewrite Hlen; simpl; lia).
    cbn [bloom_event peakDate peakValue]. split; split; try discriminate.
    + intro H. exfalso. revert H. apply date_at_opt_in_range.
      now rewrite <- Hlen.
    + intro H. apply nth_error_None in H. lia.
Qed.

Lemma detectBloom_peak_present_witness :
  exists ev : BloomEvent,
    detectBloom hump_series (smoothed_of hump_series) = Returns ev
    /\ (peakDate ev = None <-> hump_series = [])
    /\ (peakValue ev = None <-> hump_series = []).
Proof.
  apply (detectBloom_peak_present hump_series (smoothed_of hump_series)).
  reflexivity.
Defined.

(** C2, as the code has it.  For a series that is not empty and smoothed
    values of the same length: when the scan from n-2 down to peakIndex+1
    meets a first index i with smoothed[i+1] < threshold <= smoothed[i],
    the end date is the date at index i+1, the index at which the smoothed
    series has dropped below the threshold (it is not null); when the scan
    meets no such index, the end date is null. *)
Theorem detectBloom_end_after_crossing (series : list Sample)
    (values : list Q) :
  length values = length series -> series <> [] ->
  exists ev : BloomEvent,
    detectBloom series values = Returns ev
    /\ (forall i : nat,
          first_falling values (threshold_of values) (peakIdx_of values) i ->
          endDate ev = date_at_opt series (i + 1)
          /\ endDate ev <> None
          /\ JS.get values (i + 1) < threshold_of values)
    /\ ((forall i : nat,
           (peakIdx_of values < i)%nat -> (i + 2 <= length values)%nat ->
           ~ falling_crossing values (threshold_of values) i) ->
        endDate ev = None).
Proof.
  intros Hlen Hne. rewrite (detectBloom_returns series values Hlen).
  eexists. split; [reflexivity|].
  destruct series as [|s series]; [contradiction|].
  cbn [bloom_event endDate].
  pose proof (endIdx_of_spec values (threshold_of values) (peakIdx_of values))
    as Hend.
  destruct (endIdx_of values (threshold_of values) (peakIdx_of values))
    as [e|].
  - destruct Hend as [i0 [-> Hi0]]. split.
    + intros i Hi.
      rewrite (first_falling_unique _ _ _ _ _ Hi Hi0).
      cbn [lookup_date]. split; [reflexivity|]. split.
      * apply date_at_opt_in_range. rewrite <- Hlen.
        destruct Hi0 as (_ & H & _). lia.
      * destruct Hi0 as (_ & _ & [H _] & _). exact H.
    + intro Hnone. exfalso.
      destruct Hi0 as (H1 & H2 & H3 & _). exact (Hnone i0 H1 H2 H3).
  - split.
    + intros i (H1 & H2 & H3 & _). exfalso. exact (Hend i H1 H2 H3).
    + reflexivity.
Qed.

Lemma detectBloom_end_after_crossing_witness :
  exists ev : BloomEvent,
    detectBloom hump_series (smoothed_of hump_series) = Returns ev
    /\ (forall i : nat,
          first_falling (smoothed_of hump_series)
            (threshold_of (smoothed_of hump_series))
            (peakIdx_of (smoothed_of hump_series)) i ->
          endDate ev = date_at_opt hump_series (i + 1)
          /\ endDate ev <> None
          /\ JS.get (smoothed_of hump_series) (i + 1)
             < threshold_of (smoothed_of hump_series))
    /\ ((forall i : nat,
           (peakIdx_of (smoothed_of hump_series) < i)%nat ->
           (i + 2 <= length (smoothed_of hump_series))%nat ->
           ~ falling_crossing (smoothed_of hump_series)
               (threshold_of (smoothed_of hump_series)) i) ->
        endDate ev = None).
Proof.
  apply (detectBloom_end_after_crossing hump_series (smoothed_of hump_series)).
  - reflexivity.
  - discriminate.
Defined.

(** C2 fails as stated: on the eleven-day series 0,0,0,60,60,60,60,60,0,0,0
    the smoothed values are 0,15,24,36,48,60,48,36,24,15,0 and the
    threshold is 19.2; the first index of the descending scan with
    smoothed[i+1] < threshold <= smoothed[i] is 8, yet the end date is the
    date at index 9 (January 10th), not the date at index 8. *)
Lemma detectBloom_end_not_at_crossing :
  first_falling (smoothed_of hump_series)
    (threshold_of (smoothed_of hump_series))
    (peakIdx_of (smoothed_of hump_series)) 8
  /\ exists ev : BloomEvent,
       detectBloom hump_series (smoothed_of hump_series) = Returns ev
       /\ endDate ev = Some (mkDate 2024 1 10)
       /\ date_at_opt hump_series 8 = Some (mkDate 2024 1 9)
       /\ endDate ev <> date_at_opt hump_series 8.
Proof.
  split.
  - split; [vm_compute; lia|]. split; [vm_compute; lia|].
    split; [apply falling_spec; vm_compute; reflexivity|].
    intros k H1 H2 Hc. apply falling_spec in Hc.
    assert (Hl : length (smoothed_of hump_series) = 11%nat) by reflexivity.
    rewrite Hl in H2. assert (k = 9)%nat as -> by lia.
    vm_compute in Hc. discriminate.
  - eexists. split; [vm_compute; reflexivity|].
    split; [reflexivity|]. split; [reflexivity|].
    vm_compute. discriminate.
Qed.

Lemma clamp_confidence_range (spread : Q) :
  0.5 <= clamp_confidence spread <= 0.95.
Proof.
  unfold clamp_confidence.
  destruct (Math_max_lub 0.5 (JS.Math_min 0.95 (0.5 + spread * 0.8)))
    as [Hlow _].
  split; [exact Hlow|].
  destruct (Math_max_cases 0.5 (JS.Math_min 0.95 (0.5 + spread * 0.8)))
    as [[-> _] | [-> _]].
  - lra.
  - apply Math_min_glb.
Qed.

Lemma completeness_of_cases (o p e : option ISODate) :
  (completeness_of o p e = 1 /\ o <> None /\ p <> None /\ e <> None)
  \/ (completeness_of o p e = 0.6 /\ (o = None \/ p = None \/ e = None)).
Proof.
  unfold completeness_of.
  destruct o, p, e; simpl;
    try (left; repeat split; (reflexivity || discriminate));
    right; split; auto.
Qed.

(** C3, as the code has it.  With smoothed values of the length of the
    series the detector returns an event whose confidence lies in
    [0.3, 0.95]: it is at least 0.5 when the onset, peak and end dates are
    all present, and it is at most 0.57 (0.6 times a value of [0.5, 0.95],
    or the 0.5 of the neutral event) when one of them is null. *)
Theorem detectBloom_confidence_range (series : list Sample)
    (values : list Q) :
  length values = length series ->
  exists ev : BloomEvent,
    detectBloom series values = Returns ev
    /\ 0.3 <= confidence ev <= 0.95
    /\ (onsetDate ev <> None -> peakDate ev <> None -> endDate ev <> None ->
        0.5 <= confidence ev)
    /\ (onsetDate ev = None \/ peakDate ev = None \/ endDate ev = None ->
        confidence ev <= 0.57).
Proof.
  intro Hlen. rewrite (detectBloom_returns series values Hlen).
  eexists. split; [reflexivity|].
  destruct series as [|s series].
  - cbn [emptyDetection confidence onsetDate peakDate endDate].
    repeat split; intros; lra.
  - cbn [bloom_event confidence onsetDate peakDate endDate].
    set (o := lookup_date _ (onsetIdx_of _ _)).
    set (p := date_at_opt _ _).
    set (e := lookup_date _ (endIdx_of _ _ _)).
    pose proof (clamp_confidence_range (spread_of values)) as [Hlo Hhi].
    destruct (completeness_of_cases o p e) as [[-> (Ho & Hp & He)] | [-> Hnone]].
    + repeat split; intros; try lra.
      destruct H as [H | [H | H]]; contradiction.
    + repeat split; intros; try lra.
      destruct Hnone as [H' | [H' | H']]; contradiction.
Qed.

Lemma detectBloom_confidence_range_witness :
  exists ev : BloomEvent,
    detectBloom single_series (smoothed_of single_series) = Returns ev
    /\ 0.3 <= confidence ev <= 0.95
    /\ (onsetDate ev <> None -> peakDate ev <> None -> endDate ev <> None ->
        0.5 <= confidence ev)
    /\ (onsetDate ev = None \/ peakDate ev = None \/ endDate ev = None ->
        confidence ev <= 0.57).
Proof.
  apply (detectBloom_confidence_range single_series
           (smoothed_of single_series)).
  reflexivity.
Defined.

(** C3 fails as stated: for the one-sample series with value 0.5 there is
    neither onset nor end, the completeness is 0.6 and the confidence is
    0.5 * 0.6 = 0.3, below 0.5. *)
Lemma detectBloom_confidence_below_half :
  exists ev : BloomEvent,
    detectBloom single_series (smoothed_of single_series) = Returns ev
    /\ confidence ev == 0.3
    /\ ~ (0.5 <= confidence ev <= 0.95).
Proof.
  eexists. split; [vm_compute; reflexivity|].
  split; [reflexivity|].
  intros [H _]. vm_compute in H. apply H. reflexivity.
Qed.

(** C4, as the code has it.  With smoothed values of the length of the
    series the detector returns an event such that: when the onset and end
    dates are both present, the duration is the number of days from the
    onset date to the end date floored at 0, that is, this number when it
    is not negative and 0 when the end date lies before the onset date;
    when one of the two dates is null, the duration is null. *)
Theorem detectBloom_duration_floored (series : list Sample)
    (values : list Q) :
  length values = length series ->
  exists ev : BloomEvent,
    detectBloom series values = Returns ev
    /\ (forall o e : ISODate,
          onsetDate ev = Some o -> endDate ev = Some e ->
          exists d : Q,
            durationDays ev = Some d /\ 0 <= d
            /\ (0 <= days_between o e -> d == days_between o e)
            /\ (days_between o e <= 0 -> d == 0))
    /\ (onsetDate ev = None \/ endDate ev = None -> durationDays ev = None).
Proof.
  intro Hlen. rewrite (detectBloom_returns series values Hlen).
  eexists. split; [reflexivity|].
  destruct series as [|s series].
  - cbn [emptyDetection durationDays onsetDate endDate].
    split; [intros o e H; discriminate | reflexivity].
  - cbn [bloom_event durationDays onsetDate endDate].
    set (on := lookup_date _ (onsetIdx_of _ _)).
    set (en := lookup_date _ (endIdx_of _ _ _)).
    split.
    + intros o e -> ->. cbn [duration_of].
      fold (days_between o e). eexists. split; [reflexivity|].
      destruct (Math_max_cases 0 (days_between o e)) as [[-> H] | [-> H]].
      * repeat split; intros; lra.
      * repeat split; intros; lra.
    + intros [-> | ->]; [reflexivity | now destruct on].
Qed.

Lemma detectBloom_duration_floored_witness :
  exists ev : BloomEvent,
    detectBloom hump_series (smoothed_of hump_series) = Returns ev
    /\ (forall o e : ISODate,
          onsetDate ev = Some o -> endDate ev = Some e ->
          exists d : Q,
            durationDays ev = Some d /\ 0 <= d
            /\ (0 <= days_between o e -> d == days_between o e)
            /\ (days_between o e <= 0 -> d == 0))
    /\ (onsetDate ev = None \/ endDate ev = None -> durationDays ev = None).
Proof.
  apply (detectBloom_duration_floored hump_series (smoothed_of hump_series)).
  reflexivity.
Defined.

(** C4 fails as stated: on the eleven-day series 90,90,90,0,0,0,0,0,50,
    50,50 the smoothed values are 90,67.5,54,36,18,0,10,20,30,37.5,50 and
    the threshold is 33; the peak is at index 0, the end scan stops at the
    fall after it (end date January 5th) and the onset is the later rise
    (January 10th).  Both dates are present, the end date minus the onset
    date is -5 days, and the duration is 0. *)
Lemma detectBloom_duration_not_difference :
  exists (ev : BloomEvent) (d : Q),
    detectBloom early_peak_series (smoothed_of early_peak_series) = Returns ev
    /\ onsetDate ev = Some (mkDate 2024 1 10)
    /\ endDate ev = Some (mkDate 2024 1 5)
    /\ durationDays ev = Some d
    /\ d == 0
    /\ days_between (mkDate 2024 1 10) (mkDate 2024 1 5) == - (5)
    /\ ~ d == days_between (mkDate 2024 1 10) (mkDate 2024 1 5).
Proof.
  eexists. eexists. split; [vm_compute; reflexivity|].
  split; [reflexivity|]. split; [reflexivity|]. split; [reflexivity|].
  split; [reflexivity|]. split; [reflexivity|].
  intro H. vm_compute in H. discriminate.
Qed.

(** ** Sorting *)

Section Sorting.

Context {A : Type} (le : A -> A -> bool).

Lemma insert_perm (x : A) (l : list A) :
  Permutation (JS.insert le x l) (x :: l).
Proof.
  induction l as [|y l IH]; simpl.
  - apply Permutation_refl.
  - destruct (le x y).
    + apply Permutation_refl.
    + apply perm_trans with (y :: x :: l).
      * apply perm_skip. exact IH.
      * apply perm_swap.
Qed.

Lemma sort_perm (l : list A) : Permutation (JS.sort le l) l.
Proof.
  induction l as [|x l IH]; simpl.
  - apply perm_nil.
  - apply perm_trans with (x :: JS.sort le l).
    + apply insert_perm.
    + apply perm_skip. exact IH.
Qed.

Lemma sort_length (l : list A) : length (JS.sort le l) = length l.
Proof. apply Permutation_length, sort_perm. Qed.

Hypothesis le_total : forall x y, le x y = true \/ le y x = true.

Let le_prop (x y : A) : Prop := le x y = true.

Lemma insert_sorted (x : A) (l : list A) :
  Sorted le_prop l -> Sorted le_prop (JS.insert le x l).
Proof.
  induction 1 as [|y l Hs IH Hhd]; simpl.
  - repeat constructor.
  - destruct (le x y) eqn:E.
    + constructor; [constructor; assumption | constructor; exact E].
    + constructor; [exact IH|].
      assert (Hyx : le_prop y x)
        by (destruct (le_total x y) as [H|H]; [congruence | exact H]).
      destruct l as [|z l]; simpl.
      * constructor. exact Hyx.
      * destruct (le x z); constructor;
          [exact Hyx | inversion Hhd; assumption].
Qed.

Lemma sort_sorted (l : list A) : Sorted le_prop (JS.sort le l).
Proof.
  induction l as [|x l IH]; simpl.
  - constructor.
  - apply insert_sorted. exact IH.
Qed.

End Sorting.

(** The numeric sort puts integers in ascending order. *)
Lemma sort_Z_sorted (l : list Z) : StronglySorted Z.le (JS.sort Z.leb l).
Proof.
  apply Sorted_StronglySorted.
  - intros x y z. apply Z.le_trans.
  - assert (H : Sorted (fun x y => Z.leb x y = true) (JS.sort Z.leb l)).
    { apply sort_sorted. intros x y.
      destruct (Z.leb_spec x y); [left; reflexivity | right].
      apply Z.leb_le. lia. }
    induction H as [|x s Hs IH Hhd]; constructor.
    + exact IH.
    + destruct Hhd as [|y s' Hxy]; constructor. now apply Z.leb_le.
Qed.

(** The numeric sort puts numbers in ascending order. *)
Lemma sort_numeric_sorted (l : list Q) : Sorted Qle (sort_numeric l).
Proof.
  assert (H : Sorted (fun x y => JS.leb x y = true) (sort_numeric l)).
  { apply sort_sorted. intros x y.
    destruct (JS.leb x y) eqn:E; [left; reflexivity | right].
    apply leb_false in E. apply leb_spec. now apply Qlt_le_weak. }
  induction H as [|x s Hs IH Hhd]; constructor.
  - exact IH.
  - destruct Hhd as [|y s' Hxy]; constructor. now apply leb_spec.
Qed.

(** The rank of a percentile is an index of the sorted values. *)
Lemma percentile_index_range (p : Q) (len : nat) :
  0 <= p <= 1 -> (0 < len)%nat ->
  (0 <= percentile_index p len < Z.of_nat len)%Z.
Proof.
  intros [Hp0 Hp1] Hlen. unfold percentile_index, JS.Math_floor.
  set (x := inject_Z (Z.of_nat len - 1)).
  assert (Hx : 0 <= x)
    by (unfold x; change 0 with (inject_Z 0); rewrite <- Zle_Qle; lia).
  assert (Hlow : 0 <= p * x) by now apply Qmult_le_0_compat.
  assert (Hhigh : p * x <= x).
  { rewrite <- (Qmult_1_l x) at 2. apply Qmult_le_compat_r; assumption. }
  apply Qfloor_resp_le in Hlow, Hhigh.
  unfold x in Hhigh at 2. rewrite Qfloor_Z in Hhigh.
  change (Qfloor 0) with 0%Z in Hlow. lia.
Qed.

(** Both percentiles are values of the series. *)
Lemma percentiles_in_values (values : list Q) :
  values <> [] -> In (p10_of values) values /\ In (p90_of values) values.
Proof.
  intro Hne.
  assert (Hlen : (0 < length (sort_numeric values))%nat).
  { unfold sort_numeric. rewrite sort_length.
    destruct values; [contradiction | simpl; lia]. }
  assert (Hin : forall p, 0 <= p <= 1 ->
            In (at_Z (sort_numeric values)
                  (percentile_index p (length (sort_numeric values))))
               values).
  { intros p Hp.
    apply (Permutation_in _ (sort_perm JS.leb values)).
    unfold at_Z, JS.get. apply nth_In.
    pose proof (percentile_index_range p _ Hp Hlen) as Hr.
    unfold sort_numeric in *. lia. }
  split; apply Hin; split; discriminate.
Qed.

Lemma sorted_perm_unique (s1 s2 : list Z) :
  StronglySorted Z.le s1 -> StronglySorted Z.le s2 -> Permutation s1 s2 ->
  s1 = s2.
Proof.
  intro H1. revert s2.
  induction H1 as [|x s1 Hs1 IH Hx]; intros s2 H2 Hp.
  - apply Permutation_nil in Hp. now subst.
  - destruct H2 as [|y s2 Hs2 Hy].
    + apply Permutation_sym, Permutation_nil in Hp. discriminate.
    + assert (x = y).
      { assert (Hxin : In x (y :: s2))
          by (apply (Permutation_in _ Hp); now left).
        assert (Hyin : In y (x :: s1))
          by (apply (Permutation_in _ (Permutation_sym Hp)); now left).
        rewrite Forall_forall in Hx, Hy.
        destruct Hxin as [->|Hxin]; [reflexivity|].
        destruct Hyin as [->|Hyin]; [reflexivity|].
        specialize (Hx y Hyin). specialize (Hy x Hxin). lia. }
      subst y. f_equal. apply IH; [exact Hs2|].
      now apply Permutation_cons_inv in Hp.
Qed.

(** ** YearlyAggregator *)

Lemma Math_round_integer (z : Z) : JS.Math_round (inject_Z z) = z.
Proof.
  unfold JS.Math_round, Qfloor, Qplus, inject_Z. simpl.
  symmetry. apply (Z.div_unique _ _ _ 1); lia.
Qed.

Lemma medianPeakDoy_of_sorted (peakDoys sorted : list Z) :
  Permutation sorted peakDoys -> StronglySorted Z.le sorted ->
  sorted <> [] ->
  medianPeakDoy_of peakDoys = Some (nth (length sorted / 2) sorted 0%Z).
Proof.
  intros Hp Hs Hne. unfold medianPeakDoy_of.
  assert (Hlen : length peakDoys = length sorted)
    by now apply Permutation_length, Permutation_sym.
  assert (Hsort : JS.sort Z.leb peakDoys = sorted).
  { apply sorted_perm_unique; [apply sort_Z_sorted | exact Hs |].
    apply perm_trans with peakDoys; [apply sort_perm | now apply Permutation_sym]. }
  rewrite Hsort, Hlen, Math_round_integer.
  destruct sorted; [contradiction | reflexivity].
Qed.

Lemma peakDoys_of_no_peak (perYear : list YearlyRecord) :
  (forall y, In y perYear -> peak_date y = None) ->
  peakDoys_of (withPeak_of perYear) = [].
Proof.
  intro H. unfold withPeak_of.
  induction perYear as [|y ys IH]; [reflexivity|].
  simpl. rewrite (H y) by now left. simpl.
  apply IH. intros z Hz. apply H. now right.
Qed.

(** C6.  The median peak day of the summary is null when no yearly record
    has a peak date; otherwise it is the element at index floor(count/2) of
    the peak days-of-year of the records with a peak date put in ascending
    order, one element of the list and not an average (the days are
    integers, which rounding leaves as they are); for the peak days 100,
    200 and 300, in any order, it is 200. *)
Theorem median_peak_day_middle_element (perYear : list YearlyRecord) :
  let peakDoys := peakDoys_of (withPeak_of perYear) in
  let median := median_peak_day_of_year (summary (payload_of perYear)) in
  ((forall y, In y perYear -> peak_date y = None) -> median = None)
  /\ (forall sorted : list Z,
        Permutation sorted peakDoys -> StronglySorted Z.le sorted ->
        sorted <> [] ->
        median = Some (nth (length sorted / 2) sorted 0%Z))
  /\ (Permutation peakDoys [100; 200; 300]%Z -> median = Some 200%Z).
Proof.
  cbn zeta. cbn [payload_of summary median_peak_day_of_year].
  split; [|split].
  - intro H. now rewrite peakDoys_of_no_peak.
  - intros sorted Hp Hs Hne. now apply medianPeakDoy_of_sorted.
  - intro Hp.
    rewrite (medianPeakDoy_of_sorted _ [100; 200; 300]%Z).
    + reflexivity.
    + now apply Permutation_sym.
    + repeat constructor; lia.
    + discriminate.
Qed.

Lemma median_peak_day_middle_element_witness :
  median_peak_day_of_year (summary (payload_of three_years)) = Some 200%Z.
Proof.
  apply (proj2 (proj2 (median_peak_day_middle_element three_years))).
  change (Permutation [200; 300; 100]%Z [100; 200; 300]%Z).
  apply Permutation_sym.
  apply (Permutation_cons_app [200; 300]%Z []). apply Permutation_refl.
Defined.

(** The loop over an inverted range of years has no iteration. *)
Lemma year_loop_inverted (sy ey : Z) :
  (ey < sy)%Z -> year_loop (Some sy) (Some ey) = [].
Proof.
  intro H. unfold year_loop, JS.zupto.
  replace (Z.to_nat (ey - sy + 1)) with 0%nat by lia. reflexivity.
Qed.

(** With no year to visit the summary counts are 0 and the median is
    null. *)
Lemma payload_of_no_year :
  payload_of []
  = {| years := [];
       summary := {| num_years := 0; years_with_bloom := 0;
                     median_peak_day_of_year := None |} |}.
Proof. reflexivity. Qed.

(** A bound that [parseInt] could not read passes the range check, the
    loop has no iteration and the answer is the empty payload. *)
Lemma phenology_unparsed_bound (source : Z -> list Sample)
    (sy ey : parsed_int) :
  sy = None \/ ey = None ->
  phenology source sy ey None = Json (payload_of []).
Proof.
  intros [-> | ->]; [destruct ey | destruct sy]; reflexivity.
Qed.

(** The yearly loop of the handler never ends in the [catch] clause
    because of the detector. *)
Lemma per_year_returns (source : Z -> list Sample) (ys : list Z) :
  exists records : list YearlyRecord,
    per_year source ys = Returns records /\ map record_year records = ys.
Proof.
  induction ys as [|y ys [records [IH Hy]]]; simpl.
  - exists []. split; reflexivity.
  - rewrite detectBloom_returns
      by now rewrite movingAverage_length, length_map.
    cbn [bind]. rewrite IH. cbn [bind].
    eexists. split; [reflexivity|]. simpl. now rewrite Hy.
Qed.

Lemma phenology_answers (source : Z -> list Sample) (sy ey : parsed_int) :
  int_ltb ey sy = false ->
  exists perYear : list YearlyRecord,
    phenology source sy ey None = Json (payload_of perYear)
    /\ map record_year perYear = year_loop sy ey.
Proof.
  intro H. unfold phenology. rewrite H.
  destruct (per_year_returns source (year_loop sy ey)) as [records [-> Hy]].
  exists records. split; [reflexivity | exact Hy].
Qed.

(** The handler runs the range check, looks into the cache and, when it
    holds nothing, aggregates. *)
Lemma phenology_aggregates (source : Z -> list Sample) (sy ey : parsed_int) :
  phenology source sy ey None
  = if int_ltb ey sy then Status 400 "end_year must be >= start_year"
    else match aggregate_years source sy ey with
         | Returns payload => Json payload
         | Throws _ => Status 500 "Failed to compute phenology"
         end.
Proof.
  unfold phenology, aggregate_years.
  destruct (int_ltb ey sy); [reflexivity|].
  destruct (per_year source (year_loop sy ey)); reflexivity.
Qed.

(** The range check of the handler, the caller of the aggregation: when
    the end year is smaller than the start year the request is answered
    with status 400, whatever the cache holds, and nothing is
    aggregated. *)
Lemma phenology_inverted_range_rejected (source : Z -> list Sample)
    (sy ey : Z) (cached : option Payload) :
  (ey < sy)%Z ->
  phenology source (Some sy) (Some ey) cached
  = Status 400 "end_year must be >= start_year".
Proof.
  intro H. unfold phenology, int_ltb.
  replace (ey <? sy)%Z with true by (symmetry; now apply Z.ltb_lt).
  reflexivity.
Qed.

(** C5.  On an inverted, and so empty, range of years (the end year is
    smaller than the start year) the aggregation runs its loop not once and
    returns, without an exception: the list of years is empty, the two
    counts of the summary are 0 and its median peak day is null. *)
Theorem aggregate_years_inverted_range (source : Z -> list Sample)
    (sy ey : Z) :
  (ey < sy)%Z ->
  aggregate_years source (Some sy) (Some ey)
  = Returns {| years := [];
               summary := {| num_years := 0; years_with_bloom := 0;
                             median_peak_day_of_year := None |} |}.
Proof.
  intro H. unfold aggregate_years.
  rewrite year_loop_inverted by exact H. reflexivity.
Qed.

Lemma aggregate_years_inverted_range_witness :
  (2020 < 2021)%Z
  /\ aggregate_years (fun _ => hump_series) (Some 2021%Z) (Some 2020%Z)
     = Returns {| years := [];
                  summary := {| num_years := 0; years_with_bloom := 0;
                                median_peak_day_of_year := None |} |}.
Proof.
  split; [lia|].
  apply (aggregate_years_inverted_range (fun _ => hump_series) 2021 2020).
  lia.
Defined.

(** ** TrendAnalyzer *)

(** C1 fails on the code: for the values 0,1,2,3,4,5 the sum that stands
    for the sum of y is the weighted sum 55, the slope comes out as
    (6*55 - 15*55) / (6*55 - 15*15) = -33/7, and the report is Decreasing,
    4.7143, Not significant. *)
Theorem analyzeTrends_ramp (random : Q) :
  analyzeTrends random ramp
  = Trend "Decreasing" "4.7143" (0.85 + random * 0.1) "Not significant".
Proof.
  unfold analyzeTrends.
  replace (length ramp <? 2)%nat with false by reflexivity.
  f_equal; vm_compute; reflexivity.
Qed.

Lemma calculateLinearTrend_ramp :
  calculateLinearTrend (map value ramp) == - (33 # 7).
Proof. reflexivity. Qed.

(** The least-squares slope of the same values is 1, which the report
    would print as 1.0000. *)
Lemma ols_slope_ramp :
  ols_slope (map value ramp) == 1
  /\ toFixed (JS.Math_abs 1) 4 = "1.0000".
Proof. split; reflexivity. Qed.

(** ** AnomalyDetector *)

Lemma reduce_from_fold {A B : Type} (g : B -> A -> B) (arr : list A)
    (i : nat) (acc : B) :
  JS.reduce_from (fun sum val (_ : nat) => g sum val) arr i acc
  = fold_left g arr acc.
Proof.
  revert i acc. induction arr as [|v arr IH]; intros i acc; simpl.
  - reflexivity.
  - apply IH.
Qed.

Lemma fold_left_sum (h : Q -> Q) (l : list Q) (a : Q) :
  fold_left (fun sum val => sum + h val) l a
  == a + fold_right Qplus 0 (map h l).
Proof.
  revert a. induction l as [|x l IH]; intro a; simpl.
  - ring.
  - rewrite IH. ring.
Qed.

Lemma sum_nonneg (l : list Q) :
  Forall (fun x => 0 <= x) l -> 0 <= fold_right Qplus 0 l.
Proof.
  induction 1 as [|x l Hx _ IH]; simpl; lra.
Qed.

Lemma sum_zero_terms (l : list Q) :
  Forall (fun x => 0 <= x) l -> fold_right Qplus 0 l == 0 ->
  Forall (fun x => x == 0) l.
Proof.
  induction 1 as [|x l Hx Hl IH]; simpl; intro Hsum.
  - constructor.
  - pose proof (sum_nonneg l Hl) as Hrest.
    constructor; [lra | apply IH; lra].
Qed.

(** A series without variance has all its values at the mean. *)
Lemma variance_zero_values (values : list Q) :
  values <> [] -> variance_of values == 0 ->
  Forall (fun v => v == mean_of values) values.
Proof.
  intros Hne Hvar. unfold variance_of, JS.reduce in Hvar.
  rewrite (reduce_from_fold (fun sum val => sum + (val - mean_of values) ^ 2))
    in Hvar.
  rewrite fold_left_sum in Hvar.
  assert (Hn : 0 < of_nat (length values)).
  { apply of_nat_pos. destruct values; [contradiction | simpl; lia]. }
  set (total := fold_right Qplus 0
                  (map (fun v => (v - mean_of values) ^ 2) values)) in *.
  assert (Hsum : total == 0).
  { assert (Hnz : ~ of_nat (length values) == 0)
      by (intro E; rewrite E in Hn; exact (Qlt_irrefl 0 Hn)).
    assert (E : total == (0 + total) / of_nat (length values)
                         * of_nat (length values)) by (field; exact Hnz).
    rewrite E, Hvar. ring. }
  apply sum_zero_terms in Hsum.
  - rewrite Forall_map in Hsum. apply Forall_forall.
    rewrite Forall_forall in Hsum. intros v Hv. specialize (Hsum v Hv).
    simpl in Hsum. apply Qmult_integral in Hsum. lra.
  - rewrite Forall_map. apply Forall_forall. intros v _. apply Qsqr_nonneg.
Qed.

Lemma filter_at_mean (mean stdDev : Q) (data : list Sample) :
  Forall (fun d => value d == mean) data -> stdDev == 0 ->
  filter (fun d => JS.gtb (JS.Math_abs (value d - mean)) (2 * stdDev)) data
  = [].
Proof.
  intros Hvals Hstd. induction Hvals as [|d ds Hd _ IH]; [reflexivity|].
  cbn [filter]. rewrite IH.
  replace (JS.gtb (JS.Math_abs (value d - mean)) (2 * stdDev)) with false;
    [reflexivity|].
  symmetry. unfold JS.gtb. apply ltb_false.
  unfold JS.Math_abs. rewrite Hstd.
  assert (E : value d - mean == 0) by lra.
  rewrite (Qabs_wd _ _ E). simpl. lra.
Qed.

(** In exact arithmetic, for a series that is not empty and has population
    variance 0, and a square root that sends 0 to 0, the detector reports
    no anomaly: the count is 0, the list of dates is empty and the
    severity is the "None detected" of the code.  The only divisions are
    by the length of the series, which is not 0. *)
Lemma detectAnomalies_zero_variance (Math_sqrt : Q -> Q)
    (data : list Sample) :
  (forall x : Q, x == 0 -> Math_sqrt x == 0) ->
  data <> [] ->
  variance_of (map value data) == 0 ->
  count (detectAnomalies Math_sqrt data) = 0%nat
  /\ dates (detectAnomalies Math_sqrt data) = []
  /\ severity (detectAnomalies Math_sqrt data) = "None detected".
Proof.
  intros Hsqrt Hne Hvar. unfold detectAnomalies.
  cbn [count dates severity]. cbv zeta.
  fold (mean_of (map value data)).
  set (mean := mean_of (map value data)).
  change (JS.reduce _ (map value data) 0 / of_nat (length (map value data)))
    with (variance_of (map value data)).
  set (stdDev := Math_sqrt (variance_of (map value data))).
  assert (Hnone : filter (fun d => JS.gtb (JS.Math_abs (value d - mean))
                                          (2 * stdDev)) data = []).
  { apply filter_at_mean.
    - apply (proj1 (Forall_map value (fun v => v == mean) data)).
      apply variance_zero_values; [|exact Hvar].
      destruct data; [contradiction | discriminate].
    - apply Hsqrt. exact Hvar. }
  rewrite Hnone. repeat split.
Qed.

Lemma sqrt_down_zero (x : Q) : x == 0 -> sqrt_down x == 0.
Proof.
  unfold Qeq. simpl. intro H. rewrite Z.mul_1_r in H. rewrite H. reflexivity.
Qed.

Example detectAnomalies_exact_constant_series :
  count (detectAnomalies sqrt_down (daily [0.7; 0.7; 0.7])) = 0%nat
  /\ dates (detectAnomalies sqrt_down (daily [0.7; 0.7; 0.7])) = []
  /\ severity (detectAnomalies sqrt_down (daily [0.7; 0.7; 0.7]))
     = "None detected".
Proof.
  apply (detectAnomalies_zero_variance sqrt_down (daily [0.7; 0.7; 0.7])).
  - exact sqrt_down_zero.
  - discriminate.
  - reflexivity.
Qed.

Lemma filter_map_comm {A B : Type} (f : B -> bool) (g : A -> B) (l : list A) :
  filter f (map g l) = map g (filter (fun x => f (g x)) l).
Proof.
  induction l as [|x l IH]; simpl; [reflexivity|].
  destruct (f (g x)); simpl; now rewrite IH.
Qed.

(** Over exact rationals the detector written for any arithmetic is
    [detectAnomalies]. *)
Lemma detectAnomalies_on_exact (Math_sqrt : Q -> Q) (data : list Sample) :
  detectAnomalies_on (Number.exact Math_sqrt) (map reading_of data)
  = detectAnomalies Math_sqrt data.
Proof.
  unfold detectAnomalies_on, detectAnomalies.
  rewrite map_map. change (map (fun x => read_value (reading_of x)) data)
    with (map value data).
  rewrite filter_map_comm, length_map, map_map.
  reflexivity.
Qed.


(** * Further properties *)

(** ** Smoother: small windows *)

Lemma window_acc_empty (values : list Q) (i half : Z) :
  (half < 0)%Z -> window_acc values i half = (0, 0%Z).
Proof.
  intro H. unfold window_acc, JS.zupto.
  replace (Z.to_nat (i + half - (i - half) + 1)) with 0%nat by lia.
  reflexivity.
Qed.

(** X2.  With a window size below 2 (1, 0 or negative) the window holds
    the element itself, or nothing at all and the source falls back on
    [values[i]]: every output value equals the input value at its index. *)
Theorem movingAverage_small_window (values : list Q) (windowSize : Z)
    (i : nat) :
  (windowSize < 2)%Z -> (i < length values)%nat ->
  nth i (movingAverage values windowSize) 0 == nth i values 0.
Proof.
  intros Hw Hi.
  destruct (Z_lt_le_dec windowSize 0) as [Hneg | Hpos].
  - unfold movingAverage. rewrite nth_map_seq by exact Hi.
    rewrite window_acc_empty.
    + reflexivity.
    + apply Z.div_lt_upper_bound; lia.
  - rewrite movingAverage_nth by assumption.
    assert (Hhalf : (windowSize / 2 = 0)%Z) by (apply Z.div_small; lia).
    rewrite Hhalf. unfold window, arithmetic_mean.
    replace (Z.to_nat (Z.max 0 (Z.of_nat i - 0))) with i by lia.
    replace (Z.to_nat (Z.min (Z.of_nat (length values) - 1) (Z.of_nat i + 0)))
      with i by lia.
    replace (i - i + 1)%nat with 1%nat by lia.
    rewrite (skipn_nth_cons values i 0) by exact Hi.
    simpl. unfold of_nat. simpl. field.
Qed.

Lemma movingAverage_small_window_witness :
  nth 3 (movingAverage [0; 0; 0; 60; 60] 1) 0 == nth 3 [0; 0; 0; 60; 60] 0.
Proof.
  apply (movingAverage_small_window [0; 0; 0; 60; 60] 1 3).
  - lia.
  - simpl. lia.
Defined.


(** ** BloomDetector: exceptions, peak, onset, threshold *)

(** X3.  Called with smoothed values of the length of the series, the
    detector never throws: it returns an event. *)
Theorem detectBloom_aligned_returns (series : list Sample) (values : list Q) :
  length values = length series ->
  exists ev : BloomEvent, detectBloom series values = Returns ev.
Proof.
  intro Hlen. rewrite (detectBloom_returns series values Hlen).
  eexists. reflexivity.
Qed.

Lemma detectBloom_aligned_returns_witness :
  exists ev : BloomEvent,
    detectBloom hump_series (smoothed_of hump_series) = Returns ev.
Proof.
  apply (detectBloom_aligned_returns hump_series (smoothed_of hump_series)).
  reflexivity.
Defined.

Lemma date_at_past_series (series : list Sample) (i : nat) :
  (length series <= i)%nat -> date_at series (Some i) = Throws TypeError.
Proof.
  intro H. unfold date_at.
  apply nth_error_None in H. now rewrite H.
Qed.

(** X4.  When the series is not empty and the onset loop or the end loop
    stops at an index that the series does not have (the smoothed values
    being longer than the series), reading [series[idx].date] throws a
    TypeError and no event is returned. *)
Theorem detectBloom_throws_past_series (series : list Sample)
    (values : list Q) (i : nat) :
  series <> [] ->
  (length series <= i)%nat ->
  onsetIdx_of values (threshold_of values) = Some i
  \/ endIdx_of values (threshold_of values) (peakIdx_of values) = Some i ->
  detectBloom series values = Throws TypeError.
Proof.
  intros Hne Hi Hidx. unfold detectBloom.
  destruct series as [|s series]; [contradiction|].
  cbn [length Nat.eqb]. cbv zeta.
  fold (p10_of values). fold (p90_of values). fold (threshold_of values).
  destruct Hidx as [Ho | He].
  - rewrite Ho, date_at_past_series by exact Hi. reflexivity.
  - rewrite He, (date_at_past_series _ i) by exact Hi.
    destruct (date_at (s :: series) (onsetIdx_of values (threshold_of values)))
      as [o | e] eqn:E; cbn [bind]; [reflexivity|].
    unfold date_at in E.
    destruct (onsetIdx_of values (threshold_of values)) as [k|];
      [|discriminate].
    destruct (nth_error (s :: series) k); [discriminate|].
    now inversion E.
Qed.

Lemma detectBloom_throws_past_series_witness :
  detectBloom single_series (smoothed_of hump_series) = Throws TypeError.
Proof.
  apply (detectBloom_throws_past_series single_series
           (smoothed_of hump_series) 2).
  - discriminate.
  - simpl. lia.
  - left. reflexivity.
Defined.

Lemma peak_reduce_first_max (values suffix : list Q) (k best : nat) :
  (forall j, (j < length suffix)%nat ->
             nth j suffix 0 = JS.get values (k + j)) ->
  first_max values k best ->
  first_max values (k + length suffix)
    (JS.reduce_from
       (fun best v i => if JS.gtb v (JS.get values best) then i else best)
       suffix k best).
Proof.
  revert k best. induction suffix as [|v suffix IH]; intros k best Hs Hinv.
  - simpl. now rewrite Nat.add_0_r.
  - cbn [JS.reduce_from length].
    replace (k + S (length suffix))%nat with (S k + length suffix)%nat by lia.
    assert (Hv : v = JS.get values k).
    { specialize (Hs 0%nat). simpl in Hs. rewrite Nat.add_0_r in Hs.
      apply Hs. lia. }
    apply IH.
    + intros j Hj. specialize (Hs (S j)). simpl in Hs.
      rewrite Hs by lia. f_equal. lia.
    + destruct Hinv as [Hle Hlt]. unfold JS.gtb.
      destruct (JS.ltb (JS.get values best) v) eqn:E.
      * apply ltb_spec in E. rewrite Hv in E. split.
        -- intros j Hj. destruct (Nat.eq_dec j k) as [->|Hne];
             [apply Qle_refl|].
           apply Qlt_le_weak. eapply Qle_lt_trans; [apply Hle; lia | exact E].
        -- intros j Hj. eapply Qle_lt_trans; [apply Hle; lia | exact E].
      * apply ltb_false in E. rewrite Hv in E. split.
        -- intros j Hj. destruct (Nat.eq_dec j k) as [->|Hne];
             [exact E | apply Hle; lia].
        -- exact Hlt.
Qed.

(** X5.  For a series that is not empty, with smoothed values of the same
    length: the peak is taken at the first index of the largest smoothed
    value; the peak value is that largest value, every smoothed value is
    at most as large and every earlier one is strictly smaller. *)
Theorem detectBloom_peak_first_maximum (series : list Sample)
    (values : list Q) :
  length values = length series -> series <> [] ->
  exists (ev : BloomEvent) (p : nat),
    detectBloom series values = Returns ev
    /\ (p < length values)%nat
    /\ peakDate ev = date_at_opt series p
    /\ peakValue ev = Some (JS.get values p)
    /\ (forall j, (j < length values)%nat ->
                  JS.get values j <= JS.get values p)
    /\ (forall j, (j < p)%nat -> JS.get values j < JS.get values p).
Proof.
  intros Hlen Hne. rewrite (detectBloom_returns series values Hlen).
  destruct series as [|s series]; [contradiction|].
  exists (bloom_event (s :: series) values), (peakIdx_of values).
  assert (Hp : (peakIdx_of values < length values)%nat)
    by (apply peakIdx_of_range; rewrite Hlen; simpl; lia).
  split; [reflexivity|]. split; [exact Hp|]. split; [reflexivity|].
  split.
  - cbn [bloom_event peakValue]. unfold JS.get.
    now apply nth_error_nth'.
  - assert (H : first_max values (0 + length values) (peakIdx_of values)).
    { apply peak_reduce_first_max.
      - intros j _. reflexivity.
      - split; intros j Hj; lia. }
    exact H.
Qed.

Lemma detectBloom_peak_first_maximum_witness :
  exists (ev : BloomEvent) (p : nat),
    detectBloom hump_series (smoothed_of hump_series) = Returns ev
    /\ (p < length (smoothed_of hump_series))%nat
    /\ peakDate ev = date_at_opt hump_series p
    /\ peakValue ev = Some (JS.get (smoothed_of hump_series) p)
    /\ (forall j, (j < length (smoothed_of hump_series))%nat ->
                  JS.get (smoothed_of hump_series) j
                  <= JS.get (smoothed_of hump_series) p)
    /\ (forall j, (j < p)%nat ->
                  JS.get (smoothed_of hump_series) j
                  < JS.get (smoothed_of hump_series) p).
Proof.
  apply (detectBloom_peak_first_maximum hump_series
           (smoothed_of hump_series)).
  - reflexivity.
  - discriminate.
Defined.

Lemma rising_spec (values : list Q) (threshold : Q) (i : nat) :
  rising values threshold i = true <-> rising_crossing values threshold i.
Proof.
  unfold rising, rising_crossing, JS.geb.
  now rewrite andb_true_iff, ltb_spec, leb_spec.
Qed.

Lemma find_ascending (f : nat -> bool) (a len : nat) :
  match find f (seq a len) with
  | Some i => (a <= i < a + len)%nat /\ f i = true
              /\ forall k, (a <= k < i)%nat -> f k = false
  | None => forall k, (a <= k < a + len)%nat -> f k = false
  end.
Proof.
  revert a. induction len as [|len IH]; intro a.
  - simpl. intros k Hk. lia.
  - simpl. destruct (f a) eqn:E.
    + split; [lia|]. split; [exact E|]. intros k Hk. lia.
    + specialize (IH (S a)).
      destruct (find f (seq (S a) len)) as [i|].
      * destruct IH as [Hr [Hf Hk]]. split; [lia|]. split; [exact Hf|].
        intros k Hlt. destruct (Nat.eq_dec k a) as [->|Hne];
          [exact E | apply Hk; lia].
      * intros k Hlt. destruct (Nat.eq_dec k a) as [->|Hne];
          [exact E | apply IH; lia].
Qed.

Lemma onsetIdx_of_spec (values : list Q) (threshold : Q) :
  match onsetIdx_of values threshold with
  | Some i => first_rising values threshold i
  | None => forall i, (1 <= i < length values)%nat ->
              ~ rising_crossing values threshold i
  end.
Proof.
  unfold onsetIdx_of.
  pose proof (find_ascending (rising values threshold) 1 (length values - 1))
    as H.
  destruct (find (rising values threshold) (seq 1 (length values - 1)))
    as [i|].
  - destruct H as [Hr [Hf Hk]]. unfold first_rising.
    split; [lia|]. split; [now apply rising_spec|].
    intros k Hlt Hc. apply rising_spec in Hc.
    rewrite Hk in Hc by lia. discriminate.
  - intros i Hi Hc. apply rising_spec in Hc.
    rewrite H in Hc by lia. discriminate.
Qed.

Lemma first_rising_unique (values : list Q) (threshold : Q) (i j : nat) :
  first_rising values threshold i -> first_rising values threshold j -> i = j.
Proof.
  intros (Hi1 & Hi2 & Hi3) (Hj1 & Hj2 & Hj3).
  destruct (Nat.lt_trichotomy i j) as [H|[H|H]]; [|exact H|].
  - exfalso. apply (Hj3 i); [lia | exact Hi2].
  - exfalso. apply (Hi3 j); [lia | exact Hj2].
Qed.

(** X6.  For a series that is not empty, with smoothed values of the same
    length: the onset date is the date at the first index i >= 1 with
    smoothed[i-1] < threshold <= smoothed[i]; when no index has this
    crossing, the onset date and the duration are null. *)
Theorem detectBloom_onset_first_rise (series : list Sample)
    (values : list Q) :
  length values = length series -> series <> [] ->
  exists ev : BloomEvent,
    detectBloom series values = Returns ev
    /\ (forall i : nat,
          first_rising values (threshold_of values) i ->
          onsetDate ev = date_at_opt series i /\ onsetDate ev <> None)
    /\ ((forall i : nat, (1 <= i < length values)%nat ->
           ~ rising_crossing values (threshold_of values) i) ->
        onsetDate ev = None /\ durationDays ev = None).
Proof.
  intros Hlen Hne. rewrite (detectBloom_returns series values Hlen).
  eexists. split; [reflexivity|].
  destruct series as [|s series]; [contradiction|].
  cbn [bloom_event onsetDate durationDays].
  pose proof (onsetIdx_of_spec values (threshold_of values)) as Hon.
  destruct (onsetIdx_of values (threshold_of values)) as [o|].
  - split.
    + intros i Hi. rewrite (first_rising_unique _ _ _ _ Hi Hon).
      cbn [lookup_date]. split; [reflexivity|].
      apply date_at_opt_in_range. rewrite <- Hlen.
      destruct Hon as (H & _). lia.
    + intro Hnone. exfalso.
      destruct Hon as (H1 & H2 & _). exact (Hnone o H1 H2).
  - split.
    + intros i (H1 & H2 & _). exfalso. exact (Hon i H1 H2).
    + intros _. split; reflexivity.
Qed.

Lemma detectBloom_onset_first_rise_witness :
  exists ev : BloomEvent,
    detectBloom hump_series (smoothed_of hump_series) = Returns ev
    /\ (forall i : nat,
          first_rising (smoothed_of hump_series)
            (threshold_of (smoothed_of hump_series)) i ->
          onsetDate ev = date_at_opt hump_series i /\ onsetDate ev <> None)
    /\ ((forall i : nat,
           (1 <= i < length (smoothed_of hump_series))%nat ->
           ~ rising_crossing (smoothed_of hump_series)
               (threshold_of (smoothed_of hump_series)) i) ->
        onsetDate ev = None /\ durationDays ev = None).
Proof.
  apply (detectBloom_onset_first_rise hump_series (smoothed_of hump_series)).
  - reflexivity.
  - discriminate.
Defined.


(** X7.  When the detector reports an end date, it is the date of an
    index at least two places after the peak index, and the peak date is
    present as well. *)
Theorem detectBloom_end_after_peak (series : list Sample) (values : list Q) :
  length values = length series ->
  exists ev : BloomEvent,
    detectBloom series values = Returns ev
    /\ (endDate ev <> None ->
        exists e : nat,
          (peakIdx_of values + 2 <= e < length values)%nat
          /\ endDate ev = date_at_opt series e
          /\ peakDate ev = date_at_opt series (peakIdx_of values)
          /\ peakDate ev <> None).
Proof.
  intro Hlen. rewrite (detectBloom_returns series values Hlen).
  eexists. split; [reflexivity|].
  destruct series as [|s series]; [intro H; now contradiction H|].
  cbn [bloom_event endDate peakDate].
  pose proof (endIdx_of_spec values (threshold_of values) (peakIdx_of values))
    as Hend.
  destruct (endIdx_of values (threshold_of values) (peakIdx_of values))
    as [e|]; [|intro H; now contradiction H].
  intros _. destruct Hend as [i [-> (H1 & H2 & _)]].
  exists (i + 1)%nat. split; [lia|]. split; [reflexivity|].
  split; [reflexivity|].
  apply date_at_opt_in_range. rewrite <- Hlen. lia.
Qed.

Lemma detectBloom_end_after_peak_witness :
  exists ev : BloomEvent,
    detectBloom hump_series (smoothed_of hump_series) = Returns ev
    /\ (endDate ev <> None ->
        exists e : nat,
          (peakIdx_of (smoothed_of hump_series) + 2 <= e
           < length (smoothed_of hump_series))%nat
          /\ endDate ev = date_at_opt hump_series e
          /\ peakDate ev
             = date_at_opt hump_series (peakIdx_of (smoothed_of hump_series))
          /\ peakDate ev <> None).
Proof.
  apply (detectBloom_end_after_peak hump_series (smoothed_of hump_series)).
  reflexivity.
Defined.

Lemma StronglySorted_nth (l : list Q) (i j : nat) :
  StronglySorted Qle l -> (i <= j < length l)%nat ->
  nth i l 0 <= nth j l 0.
Proof.
  intro H. revert i j. induction H as [|x l Hs IH Hx]; intros i j Hij.
  - simpl in Hij. lia.
  - destruct i as [|i], j as [|j]; simpl in *; try lia.
    + apply Qle_refl.
    + rewrite Forall_forall in Hx. apply Hx. apply nth_In. lia.
    + apply IH. lia.
Qed.

Lemma percentile_index_mono (p q : Q) (len : nat) :
  0 <= p -> p <= q -> (0 < len)%nat ->
  (percentile_index p len <= percentile_index q len)%Z.
Proof.
  intros Hp Hpq Hlen. unfold percentile_index, JS.Math_floor.
  apply Qfloor_resp_le. apply Qmult_le_compat_r; [exact Hpq|].
  change 0 with (inject_Z 0). rewrite <- Zle_Qle. lia.
Qed.

Lemma p10_le_p90 (values : list Q) :
  values <> [] -> p10_of values <= p90_of values.
Proof.
  intro Hne. unfold p10_of, p90_of. cbv zeta.
  assert (Hlen : (0 < length (sort_numeric values))%nat).
  { unfold sort_numeric. rewrite sort_length.
    destruct values; [contradiction | simpl; lia]. }
  assert (H10 : 0 <= 0.10 <= 1) by (split; discriminate).
  assert (H90 : 0 <= 0.90 <= 1) by (split; discriminate).
  pose proof (percentile_index_range 0.10 _ H10 Hlen).
  pose proof (percentile_index_range 0.90 _ H90 Hlen).
  pose proof (percentile_index_mono 0.10 0.90 _ (proj1 H10)
                ltac:(discriminate) Hlen).
  unfold at_Z, JS.get. apply StronglySorted_nth.
  - apply Sorted_StronglySorted; [|apply sort_numeric_sorted].
    intros x y z. apply Qle_trans.
  - lia.
Qed.

Lemma percentile_facts (values : list Q) :
  values <> [] ->
  In (p10_of values) values /\ In (p90_of values) values
  /\ p10_of values <= threshold_of values <= p90_of values
  /\ spread_of values == p90_of values - p10_of values.
Proof.
  intro Hne. pose proof (percentiles_in_values values Hne) as [H10 H90].
  pose proof (p10_le_p90 values Hne) as Hle.
  split; [exact H10|]. split; [exact H90|]. split.
  - unfold threshold_of. lra.
  - unfold spread_of.
    destruct (Math_max_cases 0 (p90_of values - p10_of values))
      as [[-> H] | [-> H]]; lra.
Qed.

(** X8.  For values that are not empty, the two percentiles are values
    of the series, the threshold lies between the 10th and the 90th
    percentile, and the spread is their difference (the floor at 0 never
    applies). *)
Theorem threshold_between_percentiles (values : list Q) :
  values <> [] ->
  In (p10_of values) values /\ In (p90_of values) values
  /\ p10_of values <= threshold_of values <= p90_of values
  /\ spread_of values == p90_of values - p10_of values.
Proof. exact (percentile_facts values). Qed.

Lemma threshold_between_percentiles_witness :
  In (p10_of (smoothed_of hump_series)) (smoothed_of hump_series)
  /\ In (p90_of (smoothed_of hump_series)) (smoothed_of hump_series)
  /\ p10_of (smoothed_of hump_series)
     <= threshold_of (smoothed_of hump_series)
     <= p90_of (smoothed_of hump_series)
  /\ spread_of (smoothed_of hump_series)
     == p90_of (smoothed_of hump_series) - p10_of (smoothed_of hump_series).
Proof.
  apply (threshold_between_percentiles (smoothed_of hump_series)).
  discriminate.
Defined.

Lemma flat_get (values : list Q) (c : Q) (i : nat) :
  Forall (fun v => v == c) values -> (i < length values)%nat ->
  JS.get values i == c.
Proof.
  intros H Hi. rewrite Forall_forall in H. apply H.
  unfold JS.get. now apply nth_In.
Qed.

Lemma clamp_confidence_flat (spread : Q) :
  spread == 0 -> clamp_confidence spread == 0.5.
Proof.
  intro H. unfold clamp_confidence.
  assert (Hx : 0.5 + spread * 0.8 == 0.5) by (rewrite H; reflexivity).
  destruct (Math_max_cases 0.5 (JS.Math_min 0.95 (0.5 + spread * 0.8)))
    as [[-> _] | [-> Hlt]]; [reflexivity|].
  pose proof (Math_min_glb 0.95 (0.5 + spread * 0.8)) as [_ Hle]. lra.
Qed.

(** X9.  A series whose smoothed values are all equal has no crossing:
    the onset date, the end date and the duration are null, the peak is
    the first sample, and the confidence is 0.5 * 0.6 = 0.3. *)
Theorem detectBloom_flat_series (series : list Sample) (values : list Q)
    (c : Q) :
  length values = length series -> series <> [] ->
  Forall (fun v => v == c) values ->
  exists ev : BloomEvent,
    detectBloom series values = Returns ev
    /\ onsetDate ev = None /\ endDate ev = None /\ durationDays ev = None
    /\ peakDate ev = date_at_opt series 0
    /\ confidence ev == 0.3.
Proof.
  intros Hlen Hne Hflat. rewrite (detectBloom_returns series values Hlen).
  eexists. split; [reflexivity|].
  destruct series as [|s series]; [contradiction|].
  assert (Hv : values <> []) by (destruct values; [discriminate Hlen | discriminate]).
  destruct (percentile_facts values Hv) as (H10 & H90 & _ & Hsp).
  rewrite Forall_forall in Hflat.
  assert (Hthr : threshold_of values == c).
  { unfold threshold_of. rewrite (Hflat _ H10), (Hflat _ H90). ring. }
  assert (Hspread : spread_of values == 0).
  { rewrite Hsp, (Hflat _ H10), (Hflat _ H90). ring. }
  rewrite <- Forall_forall in Hflat.
  assert (Hon : onsetIdx_of values (threshold_of values) = None).
  { pose proof (onsetIdx_of_spec values (threshold_of values)) as H.
    destruct (onsetIdx_of values (threshold_of values)) as [o|];
      [|reflexivity].
    exfalso. destruct H as (Hr & [Hlt _] & _).
    rewrite (flat_get values c (o - 1)) in Hlt by (assumption || lia). lra. }
  assert (Hen : endIdx_of values (threshold_of values) (peakIdx_of values)
                = None).
  { pose proof (endIdx_of_spec values (threshold_of values)
                  (peakIdx_of values)) as H.
    destruct (endIdx_of values (threshold_of values) (peakIdx_of values))
      as [e|]; [|reflexivity].
    exfalso. destruct H as [i [_ (_ & Hr & [Hlt _] & _)]].
    rewrite (flat_get values c (i + 1)) in Hlt by (assumption || lia). lra. }
  assert (Hpk : peakIdx_of values = 0%nat).
  { assert (H : first_max values (0 + length values) (peakIdx_of values)).
    { apply peak_reduce_first_max.
      - intros j _. reflexivity.
      - split; intros j Hj; lia. }
    destruct (Nat.eq_dec (peakIdx_of values) 0) as [E|E]; [exact E|].
    exfalso. destruct H as [_ H]. specialize (H 0%nat ltac:(lia)).
    assert (Hp : (peakIdx_of values < length values)%nat)
      by (apply peakIdx_of_range; rewrite Hlen; simpl; lia).
    rewrite (flat_get values c 0), (flat_get values c (peakIdx_of values))
      in H by (assumption || lia).
    exact (Qlt_irrefl c H). }
  cbn [bloom_event onsetDate endDate durationDays peakDate confidence].
  rewrite Hon, Hen, Hpk. cbn [lookup_date duration_of].
  repeat (split; [reflexivity|]).
  unfold completeness_of. cbn [is_some andb].
  rewrite (clamp_confidence_flat _ Hspread). reflexivity.
Qed.

Lemma detectBloom_flat_series_witness :
  exists ev : BloomEvent,
    detectBloom (daily [0.7; 0.7; 0.7])
      (smoothed_of (daily [0.7; 0.7; 0.7])) = Returns ev
    /\ onsetDate ev = None /\ endDate ev = None /\ durationDays ev = None
    /\ peakDate ev = date_at_opt (daily [0.7; 0.7; 0.7]) 0
    /\ confidence ev == 0.3.
Proof.
  apply (detectBloom_flat_series (daily [0.7; 0.7; 0.7])
           (smoothed_of (daily [0.7; 0.7; 0.7])) 0.7).
  - reflexivity.
  - discriminate.
  - repeat constructor.
Defined.


(** ** Day of the year *)

Lemma days_from_civil_month (y m : Z) :
  (1 <= m <= 12)%Z ->
  (days_from_civil y m - days_from_civil y 1
   = days_before_month (is_leap y) m)%Z.
Proof.
  intro Hm.
  assert (Hcases : (m = 1 \/ m = 2 \/ m = 3 \/ m = 4 \/ m = 5 \/ m = 6 \/ m = 7
                    \/ m = 8 \/ m = 9 \/ m = 10 \/ m = 11 \/ m = 12)%Z) by lia.
  unfold is_leap.
  destruct (y mod 4 =? 0)%Z eqn:E4; destruct (y mod 100 =? 0)%Z eqn:E100;
    destruct (y mod 400 =? 0)%Z eqn:E400;
    rewrite ?Z.eqb_eq, ?Z.eqb_neq in *;
    cbn [andb orb negb];
    repeat (destruct Hcases as [-> | Hcases]); try subst m;
    unfold days_from_civil, days_before_month; simpl;
    Z.div_mod_to_equations; lia.
Qed.

Lemma floor_of_multiple (k c : Z) :
  (0 < c)%Z -> JS.Math_floor (inject_Z (k * c) / inject_Z c) = k.
Proof.
  intro Hc. unfold JS.Math_floor.
  assert (E : inject_Z (k * c) / inject_Z c == inject_Z k).
  { rewrite inject_Z_mult. field.
    change 0 with (inject_Z 0). rewrite inject_Z_injective. lia. }
  rewrite (Qfloor_comp _ _ E). apply Qfloor_Z.
Qed.

(** X10.  On a host whose clock is UTC, for a date whose year is not one
    of 0 to 99 (which [new Date(y, 0, 0)] reads as 1900 + y) and whose
    month is 1 to 12, [dayOfYear] is the number of days of the year before
    that month (February counting 29 days in a Gregorian leap year) plus
    the day of the month; with a day of 1 to 31 it lies between 1 and
    366. *)
Theorem dayOfYear_ordinal (d : ISODate) :
  ~ (0 <= year d <= 99)%Z ->
  (1 <= month d <= 12)%Z ->
  dayOfYear d
  = (days_before_month (is_leap (year d)) (month d) + day d)%Z
  /\ ((1 <= day d <= 31)%Z -> (1 <= dayOfYear d <= 366)%Z).
Proof.
  intros Hy Hm.
  assert (E : dayOfYear d
              = (days_before_month (is_leap (year d)) (month d) + day d)%Z).
  { unfold dayOfYear, Date_parse, Date_of.
    replace ((0 <=? year d) && (year d <=? 99))%Z%bool with false
      by (symmetry; apply andb_false_iff;
          rewrite Z.leb_gt, Z.leb_gt; lia).
    unfold civil_ms. cbv zeta.
    replace ((days_from_civil (year d) (month d - 1 + 1) + (day d - 1))
               * ms_per_day
             - (days_from_civil (year d) (0 + 1) + (0 - 1)) * ms_per_day)%Z
      with ((days_from_civil (year d) (month d)
             - days_from_civil (year d) 1 + day d) * ms_per_day)%Z.
    - rewrite floor_of_multiple by reflexivity.
      now rewrite days_from_civil_month.
    - replace (month d - 1 + 1)%Z with (month d) by lia.
      change (0 + 1)%Z with 1%Z. ring. }
  split; [exact E|].
  intro Hd. rewrite E. clear E.
  destruct d as [y m dd]. cbn [year month day] in *.
  assert (Hcases : (m = 1 \/ m = 2 \/ m = 3 \/ m = 4 \/ m = 5 \/ m = 6
                    \/ m = 7 \/ m = 8 \/ m = 9 \/ m = 10 \/ m = 11
                    \/ m = 12)%Z) by lia.
  destruct (is_leap y);
    repeat (destruct Hcases as [Hc | Hcases]; [subst m; vm_compute days_before_month; lia|]);
    subst m; vm_compute days_before_month; lia.
Qed.

Lemma dayOfYear_ordinal_witness :
  dayOfYear (mkDate 2024 3 1)
  = (days_before_month (is_leap 2024) 3 + 1)%Z
  /\ ((1 <= 1 <= 31)%Z -> (1 <= dayOfYear (mkDate 2024 3 1) <= 366)%Z).
Proof.
  apply (dayOfYear_ordinal (mkDate 2024 3 1)); simpl; lia.
Defined.


(** ** YearlyAggregator: the years of the answer *)

Lemma per_year_records (source : Z -> list Sample) (ys : list Z) :
  per_year source ys = Returns (map (year_record source) ys).
Proof.
  induction ys as [|y ys IH]; simpl.
  - reflexivity.
  - rewrite detectBloom_returns
      by now rewrite movingAverage_length, length_map.
    cbn [bind]. rewrite IH. reflexivity.
Qed.


Lemma year_record_detection (source : Z -> list Sample) (y : Z) :
  exists detection : BloomEvent,
    detectBloom (source y) (movingAverage (map value (source y)) 5)
    = Returns detection
    /\ year_record source y = record_of y detection.
Proof.
  eexists. split.
  - apply detectBloom_returns. now rewrite movingAverage_length, length_map.
  - reflexivity.
Qed.

(** X11.  For parsed years with the start year not after the end year,
    both within the range where the counter of the loop is exact (from
    -2^53 to below 2^53), the aggregation of the handler returns, without
    an exception of the detector, and its list of years holds, in
    ascending order from the start year to the end year, one record per
    year: the year and the six fields of the detection that [detectBloom]
    returns on the series of that year and its values smoothed with window
    5.  [num_years] is the number of years of the range and
    [years_with_bloom] does not exceed it. *)
Theorem aggregate_years_lists_every_year (source : Z -> list Sample)
    (sy ey : Z) :
  (sy <= ey)%Z -> (- 2 ^ 53 <= sy)%Z -> (ey < 2 ^ 53)%Z ->
  exists payload : Payload,
    aggregate_years source (Some sy) (Some ey) = Returns payload
    /\ years payload = map (year_record source) (JS.zupto sy ey)
    /\ (forall y : Z, (sy <= y <= ey)%Z ->
          exists detection : BloomEvent,
            detectBloom (source y) (movingAverage (map value (source y)) 5)
            = Returns detection
            /\ year_record source y = record_of y detection)
    /\ map record_year (years payload)
       = JS.zrange sy (Z.to_nat (ey - sy + 1))
    /\ num_years (summary payload) = Z.to_nat (ey - sy + 1)
    /\ (years_with_bloom (summary payload) <= num_years (summary payload))%nat.
Proof.
  intros H _ _. unfold aggregate_years.
  rewrite per_year_records. cbn [bind]. eexists. split; [reflexivity|].
  cbn [payload_of years summary num_years years_with_bloom].
  unfold year_loop, JS.zupto. split; [reflexivity|].
  split; [intros y _; apply year_record_detection|].
  split; [|split].
  - rewrite map_map. unfold year_record, record_of. cbn [record_year].
    apply map_id.
  - now rewrite length_map, zrange_length.
  - unfold withPeak_of. apply filter_length_le.
Qed.

Lemma aggregate_years_lists_every_year_witness :
  exists payload : Payload,
    aggregate_years (fun _ => hump_series) (Some 2020%Z) (Some 2022%Z)
    = Returns payload
    /\ years payload
       = map (year_record (fun _ => hump_series)) (JS.zupto 2020 2022)
    /\ (forall y : Z, (2020 <= y <= 2022)%Z ->
          exists detection : BloomEvent,
            detectBloom hump_series (movingAverage (map value hump_series) 5)
            = Returns detection
            /\ year_record (fun _ => hump_series) y = record_of y detection)
    /\ map record_year (years payload)
       = JS.zrange 2020 (Z.to_nat (2022 - 2020 + 1))
    /\ num_years (summary payload) = Z.to_nat (2022 - 2020 + 1)
    /\ (years_with_bloom (summary payload) <= num_years (summary payload))%nat.
Proof.
  apply (aggregate_years_lists_every_year (fun _ => hump_series) 2020 2022);
    lia.
Defined.





(** ** TrendAnalyzer: the value that [calculateLinearTrend] computes *)

Lemma ltb_comp (a a' b b' : Q) :
  a == a' -> b == b' -> JS.ltb a b = JS.ltb a' b'.
Proof.
  intros Ha Hb. destruct (JS.ltb a' b') eqn:E.
  - apply ltb_spec. apply ltb_spec in E. now rewrite Ha, Hb.
  - apply ltb_false. apply ltb_false in E. now rewrite Ha, Hb.
Qed.

Lemma of_nat_nonneg (n : nat) : 0 <= of_nat n.
Proof.
  unfold of_nat. change 0 with (inject_Z 0). rewrite <- Zle_Qle. lia.
Qed.

Lemma of_nat_le (m n : nat) : (m <= n)%nat -> of_nat m <= of_nat n.
Proof. intro H. unfold of_nat. rewrite <- Zle_Qle. lia. Qed.

Lemma reduce_from_weighted (arr : list Q) (k : nat) (acc : Q) :
  JS.reduce_from (fun sum val i => sum + val * of_nat i) arr k acc
  == acc + fold_right Qplus 0
             (map (fun p => of_nat (fst p) * snd p)
                  (combine (seq k (length arr)) arr)).
Proof.
  revert k acc. induction arr as [|v arr IH]; intros k acc; simpl.
  - ring.
  - rewrite IH. ring.
Qed.

Lemma reduce_from_squares (arr : list Q) (k : nat) (acc : Q) :
  6 * JS.reduce_from (fun sum (val : Q) i => sum + of_nat i * of_nat i)
        arr k acc
  == 6 * acc
     + (of_nat (k + length arr) - 1) * of_nat (k + length arr)
       * (2 * of_nat (k + length arr) - 1)
     - (of_nat k - 1) * of_nat k * (2 * of_nat k - 1).
Proof.
  revert k acc. induction arr as [|v arr IH]; intros k acc.
  - simpl. rewrite Nat.add_0_r. ring.
  - cbn [JS.reduce_from length]. rewrite IH.
    replace (k + S (length arr))%nat with (S k + length arr)%nat by lia.
    rewrite (of_nat_S k). ring.
Qed.

Lemma weighted_sum_nonneg (values : list Q) :
  Forall (fun v => 0 <= v) values -> 0 <= weighted_sum values.
Proof.
  intro H. unfold weighted_sum. generalize 0%nat.
  induction H as [|v values Hv _ IH]; intro k; simpl.
  - apply Qle_refl.
  - specialize (IH (S k)).
    pose proof (Qmult_le_0_compat _ _ (of_nat_nonneg k) Hv). lra.
Qed.

Lemma calculateLinearTrend_value (values : list Q) :
  (2 <= length values)%nat ->
  calculateLinearTrend values
  == 6 * (3 - of_nat (length values)) * weighted_sum values
     / (of_nat (length values)
        * (of_nat (length values) * of_nat (length values) - 1)).
Proof.
  intro Hlen. unfold calculateLinearTrend, JS.reduce. cbv zeta.
  rewrite reduce_from_weighted. fold (weighted_sum values).
  pose proof (reduce_from_squares values 0 0) as Hsq.
  set (sq := JS.reduce_from _ values 0%nat 0) in *.
  cbn [Nat.add] in Hsq.
  set (n := of_nat (length values)) in *.
  set (S := weighted_sum values).
  assert (Hn : 2 <= n) by (apply (of_nat_le 2); exact Hlen).
  assert (Esq : sq == (n - 1) * n * (2 * n - 1) / 6).
  { change (of_nat 0) with 0 in Hsq.
    assert (H6 : 6 * sq == (n - 1) * n * (2 * n - 1))
      by (rewrite Hsq; ring).
    rewrite <- H6. field. }
  rewrite Esq.
  assert (Hpos : 0 < n * n * ((n - 1) * (n + 1))).
  { apply Qmult_lt_0_compat; apply Qmult_lt_0_compat; lra. }
  field. split; [|split].
  - intro E.
    assert (E' : n * n * ((n - 1) * (n + 1)) == n * n * (n * n - 1)) by ring.
    rewrite E', E in Hpos. lra.
  - intro E. lra.
  - intro E.
    assert (E' : n * ((n - 1) * n * (2 * n - 1)) * 4
                 - n * (n - 1) * (n * (n - 1)) * 6
                 == 2 * (n * n * ((n - 1) * (n + 1)))) by ring.
    rewrite E' in E. lra.
Qed.

(** X13.  For at least two values, the number that
    [calculateLinearTrend] returns is 6 (3 - n) S / (n (n^2 - 1)), where
    n is the number of values and S the sum of i * values[i]. *)
Theorem calculateLinearTrend_closed_form (values : list Q) :
  (2 <= length values)%nat ->
  calculateLinearTrend values
  == 6 * (3 - of_nat (length values)) * weighted_sum values
     / (of_nat (length values)
        * (of_nat (length values) * of_nat (length values) - 1)).
Proof. exact (calculateLinearTrend_value values). Qed.

Lemma calculateLinearTrend_closed_form_witness :
  calculateLinearTrend [0; 1; 2; 3; 4; 5]
  == 6 * (3 - of_nat (length [0; 1; 2; 3; 4; 5]))
     * weighted_sum [0; 1; 2; 3; 4; 5]
     / (of_nat (length [0; 1; 2; 3; 4; 5])
        * (of_nat (length [0; 1; 2; 3; 4; 5])
           * of_nat (length [0; 1; 2; 3; 4; 5]) - 1)).
Proof.
  apply (calculateLinearTrend_closed_form [0; 1; 2; 3; 4; 5]). simpl. lia.
Defined.

(** From three values on, values that are not negative give a slope that
    is not positive. *)
Lemma calculateLinearTrend_nonpos (values : list Q) :
  (3 <= length values)%nat -> Forall (fun v => 0 <= v) values ->
  calculateLinearTrend values <= 0.
Proof.
  intros Hlen Hpos. rewrite calculateLinearTrend_value by lia.
  pose proof (weighted_sum_nonneg values Hpos) as HS.
  set (n := of_nat (length values)) in *. set (S := weighted_sum values) in *.
  assert (Hn : 3 <= n) by (apply (of_nat_le 3); exact Hlen).
  assert (Hden : 0 < n * (n * n - 1)).
  { apply Qmult_lt_0_compat; [lra|].
    assert (E : n * n - 1 == (n - 1) * (n + 1)) by ring.
    rewrite E. apply Qmult_lt_0_compat; lra. }
  apply Qle_shift_div_r; [exact Hden|]. rewrite Qmult_0_l.
  assert (E : 6 * (3 - n) * S == - (6 * ((n - 3) * S))) by ring.
  rewrite E.
  assert (0 <= (n - 3) * S) by (apply Qmult_le_0_compat; lra). lra.
Qed.

Lemma analyzeTrends_three_nonneg (random : Q) (data : list Sample) :
  (3 <= length data)%nat -> Forall (fun d => 0 <= value d) data ->
  direction_of (analyzeTrends random data) = Some "Decreasing"
  /\ significance_of (analyzeTrends random data) = Some "Not significant".
Proof.
  intros Hlen Hpos. unfold analyzeTrends.
  replace (length data <? 2)%nat with false
    by (symmetry; apply Nat.ltb_ge; lia).
  cbn [direction_of significance_of].
  assert (Ht : calculateLinearTrend (map value data) <= 0).
  { apply calculateLinearTrend_nonpos.
    - now rewrite length_map.
    - now apply Forall_map. }
  unfold JS.gtb.
  replace (JS.ltb 0 (calculateLinearTrend (map value data))) with false
    by (symmetry; apply ltb_false; exact Ht).
  replace (JS.ltb 0.01 (calculateLinearTrend (map value data))) with false
    by (symmetry; apply ltb_false; lra).
  split; reflexivity.
Qed.

(** X14.  For three samples or more whose values are not negative,
    [analyzeTrends] reports the direction Decreasing and the significance
    "Not significant": such a series is never reported as increasing. *)
Theorem analyzeTrends_never_increasing (random : Q) (data : list Sample) :
  (3 <= length data)%nat -> Forall (fun d => 0 <= value d) data ->
  direction_of (analyzeTrends random data) = Some "Decreasing"
  /\ significance_of (analyzeTrends random data) = Some "Not significant".
Proof. exact (analyzeTrends_three_nonneg random data). Qed.

Lemma analyzeTrends_never_increasing_witness :
  direction_of (analyzeTrends 0 ramp) = Some "Decreasing"
  /\ significance_of (analyzeTrends 0 ramp) = Some "Not significant".
Proof.
  apply (analyzeTrends_never_increasing 0 ramp).
  - simpl. lia.
  - repeat constructor; discriminate.
Defined.

(** X23.  With exactly two samples the slope that [calculateLinearTrend]
    returns is the value of the second sample, so the direction reported
    by [analyzeTrends] is Increasing exactly when that value is positive,
    whatever the first sample is. *)
Theorem analyzeTrends_two_samples (random : Q) (a b : Sample) :
  calculateLinearTrend [value a; value b] == value b
  /\ (direction_of (analyzeTrends random [a; b]) = Some "Increasing"
      <-> 0 < value b).
Proof.
  assert (E : calculateLinearTrend [value a; value b] == value b).
  { unfold calculateLinearTrend, JS.reduce. cbn [JS.reduce_from length].
    unfold of_nat. simpl inject_Z. field. }
  split; [exact E|].
  unfold analyzeTrends. cbn [length Nat.ltb Nat.leb map direction_of].
  unfold JS.gtb. rewrite (ltb_comp 0 0 _ (value b)) by (reflexivity || exact E).
  destruct (JS.ltb 0 (value b)) eqn:Hb.
  - split; [intros _; now apply ltb_spec | reflexivity].
  - split; [discriminate|]. intro H. apply ltb_spec in H. congruence.
Qed.


(** ** Predictor *)

Lemma Math_max_mono (c a b : Q) :
  a <= b -> JS.Math_max c a <= JS.Math_max c b.
Proof.
  intro H. pose proof (Math_max_lub c b) as [H1 H2].
  destruct (Math_max_cases c a) as [[E _] | [E _]]; rewrite E; lra.
Qed.

Lemma Math_min_mono (c a b : Q) :
  a <= b -> JS.Math_min c a <= JS.Math_min c b.
Proof.
  intro H. pose proof (Math_min_glb c a) as [H1 H2].
  unfold JS.Math_min at 2. destruct (JS.ltb b c); lra.
Qed.

Lemma predictedValue_at_range (lastValue trend : Q) (i : nat) :
  0 <= predictedValue_at lastValue trend i <= 1.
Proof.
  unfold predictedValue_at.
  pose proof (Math_max_lub 0 (JS.Math_min 1 (lastValue + trend * of_nat i)))
    as [H0 _].
  split; [exact H0|].
  destruct (Math_max_cases 0 (JS.Math_min 1 (lastValue + trend * of_nat i)))
    as [[-> _] | [-> _]]; [lra|].
  apply Math_min_glb.
Qed.

Lemma predictedValue_at_falls (lastValue trend : Q) (i : nat) :
  trend <= 0 ->
  predictedValue_at lastValue trend (S i)
  <= predictedValue_at lastValue trend i.
Proof.
  intro H. unfold predictedValue_at.
  apply Math_max_mono, Math_min_mono. rewrite of_nat_S.
  assert (E : trend * (of_nat i + 1) == trend * of_nat i + trend) by ring.
  rewrite E. lra.
Qed.

Lemma iso_of_ms_days_ahead (now : Z) (i : nat) :
  iso_of_ms (now + Z.of_nat i * 24 * 60 * 60 * 1000)
  = civil_from_days (now / ms_per_day + Z.of_nat i).
Proof.
  unfold iso_of_ms. f_equal.
  replace (now + Z.of_nat i * 24 * 60 * 60 * 1000)%Z
    with (now + Z.of_nat i * ms_per_day)%Z by (unfold ms_per_day; lia).
  apply Z.div_add. discriminate.
Qed.

Lemma nth_error_map_seq {A : Type} (f : nat -> A) (a len k : nat) (x : A) :
  nth_error (map f (seq a len)) k = Some x ->
  (k < len)%nat /\ x = f (a + k)%nat.
Proof.
  intro H.
  assert (Hk : (k < len)%nat).
  { assert (Hn : nth_error (map f (seq a len)) k <> None) by congruence.
    apply nth_error_Some in Hn. now rewrite length_map, length_seq in Hn. }
  split; [exact Hk|].
  rewrite nth_error_map, (nth_error_nth' _ 0%nat) in H
    by now rewrite length_seq.
  rewrite seq_nth in H by exact Hk. simpl in H. congruence.
Qed.

(** X15.  With fewer than 30 samples the predictor returns no prediction
    and the confidence "Low".  With 30 or more it returns exactly 30
    predictions and the confidence "Medium"; the k-th of them (from 0) is
    dated k+1 days after the day of [now], its confidence is
    0.9 - 0.01 (k+1), between 0.6 and 0.89, and its printed value is a
    number of [0, 1] written with three decimals. *)
Theorem generatePredictions_shape (now : Z) (data : list Sample) :
  ((length data < 30)%nat ->
   predictions (generatePredictions now data) = []
   /\ overall_confidence (generatePredictions now data) = "Low")
  /\ ((30 <= length data)%nat ->
      length (predictions (generatePredictions now data)) = 30%nat
      /\ overall_confidence (generatePredictions now data) = "Medium"
      /\ forall (k : nat) (p : Prediction),
           nth_error (predictions (generatePredictions now data)) k = Some p ->
           prediction_date p
           = civil_from_days (now / ms_per_day + Z.of_nat (k + 1))
           /\ prediction_confidence p == 0.9 - 0.01 * of_nat (k + 1)
           /\ 0.6 <= prediction_confidence p <= 0.89
           /\ exists q : Q, 0 <= q <= 1 /\ predicted_value p = toFixed q 3).
Proof.
  unfold generatePredictions. split; intro Hlen.
  - replace (length data <? 30)%nat with true
      by (symmetry; apply Nat.ltb_lt; lia).
    split; reflexivity.
  - replace (length data <? 30)%nat with false
      by (symmetry; apply Nat.ltb_ge; lia).
    cbn [predictions overall_confidence].
    split; [now rewrite length_map, length_seq|]. split; [reflexivity|].
    intros k p Hp. apply nth_error_map_seq in Hp. destruct Hp as [Hk ->].
    cbn [prediction_date prediction_confidence predicted_value].
    replace (1 + k)%nat with (k + 1)%nat by lia.
    split; [apply iso_of_ms_days_ahead|].
    assert (Hi : 1 <= of_nat (k + 1) <= 30).
    { split; [apply (of_nat_le 1) | apply (of_nat_le _ 30)]; lia. }
    assert (Hc : JS.Math_max 0.5 (0.9 - of_nat (k + 1) * 0.01)
                 == 0.9 - 0.01 * of_nat (k + 1)).
    { destruct (Math_max_cases 0.5 (0.9 - of_nat (k + 1) * 0.01))
        as [[-> H] | [-> H]]; lra. }
    split; [exact Hc|]. split; [rewrite Hc; lra|].
    eexists. split; [|reflexivity]. apply predictedValue_at_range.
Qed.

Lemma generatePredictions_shape_witness :
  length (predictions (generatePredictions 1709251200000
                         (daily (repeat 0.5 30)))) = 30%nat.
Proof.
  apply (proj2 (generatePredictions_shape 1709251200000
                  (daily (repeat 0.5 30)))).
  vm_compute. lia.
Defined.

Lemma slice_last_length {A : Type} (k : nat) (arr : list A) :
  (k <= length arr)%nat -> length (slice_last k arr) = k.
Proof. intro H. unfold slice_last. rewrite length_skipn. lia. Qed.

Lemma slice_last_incl {A : Type} (k : nat) (arr : list A) (x : A) :
  In x (slice_last k arr) -> In x arr.
Proof.
  unfold slice_last. intro H.
  rewrite <- (firstn_skipn (length arr - k) arr). apply in_or_app. now right.
Qed.

(** X16.  With 30 samples or more whose values are not negative, the
    slope that [calculateLinearTrend] computes over the last ten values is
    not positive; each printed prediction is the last observed value plus
    that slope times the number of days ahead, clamped into [0, 1] and
    written with three decimals; so the predicted values never rise from
    one day to the next and never exceed the last observed value clamped
    into [0, 1]. *)
Theorem generatePredictions_never_rise (now : Z) (data : list Sample) :
  (30 <= length data)%nat -> Forall (fun d => 0 <= value d) data ->
  let recentValues := map value (slice_last 10 data) in
  let trend := calculateLinearTrend recentValues in
  let lastValue := JS.get recentValues (length recentValues - 1) in
  trend <= 0
  /\ lastValue = JS.get (map value data) (length data - 1)
  /\ (forall (k : nat) (p : Prediction),
        nth_error (predictions (generatePredictions now data)) k = Some p ->
        predicted_value p
        = toFixed (predictedValue_at lastValue trend (k + 1)) 3)
  /\ (forall i : nat,
        predictedValue_at lastValue trend (S i)
        <= predictedValue_at lastValue trend i)
  /\ (forall i : nat,
        predictedValue_at lastValue trend i
        <= JS.Math_max 0 (JS.Math_min 1 lastValue)).
Proof.
  intros Hlen Hpos recentValues trend lastValue.
  assert (Hrl : length recentValues = 10%nat)
    by (unfold recentValues; rewrite length_map; apply slice_last_length; lia).
  assert (Htrend : trend <= 0).
  { apply calculateLinearTrend_nonpos; [lia|].
    unfold recentValues. apply Forall_map, Forall_forall.
    intros d Hd. apply slice_last_incl in Hd.
    rewrite Forall_forall in Hpos. now apply Hpos. }
  assert (Hlast : lastValue = JS.get (map value data) (length data - 1)).
  { unfold lastValue. rewrite Hrl. unfold recentValues, slice_last, JS.get.
    rewrite <- skipn_map, nth_skipn. f_equal. lia. }
  split; [exact Htrend|]. split; [exact Hlast|]. split; [|split].
  - intros k p Hp. unfold generatePredictions in Hp.
    replace (length data <? 30)%nat with false in Hp
      by (symmetry; apply Nat.ltb_ge; lia).
    cbn [predictions] in Hp. apply nth_error_map_seq in Hp.
    destruct Hp as [_ ->]. cbn [predicted_value].
    now replace (1 + k)%nat with (k + 1)%nat by lia.
  - intro i. now apply predictedValue_at_falls.
  - induction i as [|i IH].
    + unfold predictedValue_at. apply Math_max_mono, Math_min_mono.
      change (of_nat 0) with 0. lra.
    + eapply Qle_trans; [|exact IH]. now apply predictedValue_at_falls.
Qed.

Lemma generatePredictions_never_rise_witness :
  let data := daily (repeat 0.5 30) in
  let recentValues := map value (slice_last 10 data) in
  let trend := calculateLinearTrend recentValues in
  let lastValue := JS.get recentValues (length recentValues - 1) in
  trend <= 0
  /\ lastValue = JS.get (map value data) (length data - 1)
  /\ (forall (k : nat) (p : Prediction),
        nth_error (predictions (generatePredictions 1709251200000 data)) k
        = Some p ->
        predicted_value p
        = toFixed (predictedValue_at lastValue trend (k + 1)) 3)
  /\ (forall i : nat,
        predictedValue_at lastValue trend (S i)
        <= predictedValue_at lastValue trend i)
  /\ (forall i : nat,
        predictedValue_at lastValue trend i
        <= JS.Math_max 0 (JS.Math_min 1 lastValue)).
Proof.
  apply (generatePredictions_never_rise 1709251200000
           (daily (repeat 0.5 30))).
  - vm_compute. lia.
  - apply Forall_forall. intros d Hd. unfold daily in Hd.
    apply in_map_iff in Hd. destruct Hd as [[i v] [<- Hin]].
    apply in_combine_r in Hin. apply repeat_spec in Hin.
    cbn [value snd]. rewrite Hin. discriminate.
Defined.


(** ** RecommendationGenerator *)

Lemma generateRecommendations_cases (random : Q) (data : list Sample) :
  generateRecommendations random data
  = (if JS.ltb (JS.get (map value data) (length data - 1)) 0.3
     then ["Low vegetation detected - consider environmental factors"]
     else [])
    ++ (match direction_of (analyzeTrends random data) with
        | Some direction =>
            if String.eqb direction "Decreasing"
            then ["Declining trend observed - investigate causes"] else []
        | None => []
        end)
    ++ (if (length data <? 30)%nat
        then ["Limited data available - continue monitoring"] else [])
    ++ ["Monitor weather conditions for correlation";
        "Consider seasonal variations in analysis"].
Proof.
  unfold generateRecommendations. cbv zeta.
  assert (E : match nth_error data (length data - 1) with
              | Some item => value item
              | None => 0
              end = JS.get (map value data) (length data - 1)).
  { unfold JS.get.
    destruct (nth_error data (length data - 1)) as [item|] eqn:En.
    - rewrite (nth_error_nth _ _ _ (map_nth_error value _ _ En)). reflexivity.
    - apply nth_error_None in En. rewrite nth_overflow;
        [reflexivity | now rewrite length_map]. }
  rewrite E.
  destruct (JS.ltb (JS.get (map value data) (length data - 1)) 0.3);
    destruct (direction_of (analyzeTrends random data)) as [d|];
    try destruct (String.eqb d "Decreasing");
    destruct (length data <? 30)%nat; reflexivity.
Qed.

(** X17.  The recommendations always end with the two fixed advisories,
    preceded by at most three others; the limited-data advisory is present
    exactly when there are fewer than 30 samples, and the low-vegetation
    advisory exactly when the value of the last sample (0 for an empty
    series) is below 0.3.  For the empty series the list is the
    low-vegetation, limited-data and two fixed advisories. *)
Theorem generateRecommendations_shape (random : Q) (data : list Sample) :
  (exists prefix : list string,
      generateRecommendations random data
      = prefix ++ ["Monitor weather conditions for correlation";
                   "Consider seasonal variations in analysis"]
      /\ (length prefix <= 3)%nat)
  /\ (In "Limited data available - continue monitoring"
         (generateRecommendations random data)
      <-> (length data < 30)%nat)
  /\ (In "Low vegetation detected - consider environmental factors"
         (generateRecommendations random data)
      <-> JS.get (map value data) (length data - 1) < 0.3)
  /\ (data = [] ->
      generateRecommendations random data
      = ["Low vegetation detected - consider environmental factors";
         "Limited data available - continue monitoring";
         "Monitor weather conditions for correlation";
         "Consider seasonal variations in analysis"]).
Proof.
  rewrite generateRecommendations_cases.
  split; [|split; [|split]].
  - eexists. split.
    + rewrite !app_assoc. reflexivity.
    + rewrite !length_app.
      destruct (JS.ltb _ 0.3);
        destruct (direction_of (analyzeTrends random data)) as [d|];
        try destruct (String.eqb d "Decreasing");
        destruct (length data <? 30)%nat; simpl; lia.
  - destruct (Nat.ltb_spec (length data) 30) as [Hlt | Hge].
    + split; [intros _; exact Hlt|]. intros _.
      apply in_or_app. right. apply in_or_app. right.
      apply in_or_app. left. now left.
    + split; [|lia]. intro Hin. exfalso.
      destruct (JS.ltb _ 0.3);
        destruct (direction_of (analyzeTrends random data)) as [d|];
        try destruct (String.eqb d "Decreasing");
        simpl in Hin; intuition discriminate.
  - rewrite <- ltb_spec.
    destruct (JS.ltb (JS.get (map value data) (length data - 1)) 0.3).
    + split; [reflexivity|]. intros _. now left.
    + split; [|discriminate]. intro Hin. exfalso.
      destruct (direction_of (analyzeTrends random data)) as [d|];
        try destruct (String.eqb d "Decreasing");
        destruct (length data <? 30)%nat;
        simpl in Hin; intuition discriminate.
  - intros ->. reflexivity.
Qed.

Lemma generateRecommendations_shape_witness :
  In "Limited data available - continue monitoring"
     (generateRecommendations 0 ramp)
  <-> (length ramp < 30)%nat.
Proof.
  apply (proj1 (proj2 (generateRecommendations_shape 0 ramp))).
Defined.

(** X18.  For three samples or more whose values are not negative, the
    declining-trend advisory is always among the recommendations. *)
Theorem generateRecommendations_declining (random : Q) (data : list Sample) :
  (3 <= length data)%nat -> Forall (fun d => 0 <= value d) data ->
  In "Declining trend observed - investigate causes"
     (generateRecommendations random data).
Proof.
  intros Hlen Hpos. rewrite generateRecommendations_cases.
  destruct (analyzeTrends_three_nonneg random data Hlen Hpos) as [-> _].
  apply in_or_app. right. apply in_or_app. left. now left.
Qed.

Lemma generateRecommendations_declining_witness :
  In "Declining trend observed - investigate causes"
     (generateRecommendations 0 ramp).
Proof.
  apply (generateRecommendations_declining 0 ramp).
  - simpl. lia.
  - repeat constructor; discriminate.
Defined.


(** ** SeasonalityAnalyzer *)

Lemma add_at_length (arr : list Q) (i : nat) (v : Q) :
  length (add_at arr i v) = length arr.
Proof.
  revert i. induction arr as [|x arr IH]; intro i; [reflexivity|].
  destruct i; simpl; [reflexivity | now rewrite IH].
Qed.

Lemma add_at_nth (arr : list Q) (i m : nat) (v : Q) :
  (m < length arr)%nat ->
  nth m (add_at arr i v) 0
  = if (m =? i)%nat then nth m arr 0 + v else nth m arr 0.
Proof.
  revert i m. induction arr as [|x arr IH]; intros i m H; simpl in H; [lia|].
  destruct i, m; simpl; try reflexivity.
  apply IH. lia.
Qed.

Lemma add_at_Z_length (arr : list Q) (i : Z) (v : Q) :
  length (add_at_Z arr i v) = length arr.
Proof.
  unfold add_at_Z. destruct (0 <=? i)%Z; [apply add_at_length | reflexivity].
Qed.

Lemma add_at_Z_nth (arr : list Q) (i : Z) (m : nat) (v : Q) :
  (m < length arr)%nat ->
  nth m (add_at_Z arr i v) 0
  = if (i =? Z.of_nat m)%Z then nth m arr 0 + v else nth m arr 0.
Proof.
  intro H. unfold add_at_Z. destruct (Z.leb_spec 0 i) as [Hi | Hi].
  - rewrite add_at_nth by exact H.
    destruct (Nat.eqb_spec m (Z.to_nat i)) as [E | E];
      destruct (Z.eqb_spec i (Z.of_nat m)) as [E' | E'];
      try reflexivity; lia.
  - destruct (Z.eqb_spec i (Z.of_nat m)) as [E' | E']; [lia | reflexivity].
Qed.

(** What the [forEach] loop leaves in the two arrays. *)
Lemma season_fold_spec (data : list Sample) (D C : list Q) :
  length D = 12%nat -> length C = 12%nat ->
  length (fst (fold_left season_step data (D, C))) = 12%nat
  /\ length (snd (fold_left season_step data (D, C))) = 12%nat
  /\ forall m, (m < 12)%nat ->
       nth m (fst (fold_left season_step data (D, C))) 0
       == nth m D 0 + fold_right Qplus 0 (values_in_month data m)
       /\ nth m (snd (fold_left season_step data (D, C))) 0
          == nth m C 0 + of_nat (length (values_in_month data m)).
Proof.
  revert D C. induction data as [|item data IH]; intros D C HD HC.
  - simpl. repeat split; try assumption; unfold of_nat; simpl; ring.
  - cbn [fold_left]. unfold season_step at 2.
    specialize (IH (add_at_Z D (getMonth (date item)) (value item))
                   (add_at_Z C (getMonth (date item)) 1)).
    destruct IH as (H1 & H2 & H3);
      [now rewrite add_at_Z_length | now rewrite add_at_Z_length |].
    split; [exact H1|]. split; [exact H2|].
    intros m Hm. destruct (H3 m Hm) as [HD' HC'].
    rewrite HD', HC'. rewrite !add_at_Z_nth by lia.
    unfold values_in_month. cbn [filter].
    destruct (getMonth (date item) =? Z.of_nat m)%Z.
    + cbn [map fold_right length]. rewrite of_nat_S. split; ring.
    + split; reflexivity.
Qed.

Lemma repeat_nth_zero (m k : nat) : nth m (repeat 0 k) 0 = 0.
Proof.
  revert m. induction k as [|k IH]; intro m; destruct m; simpl; auto.
Qed.

Lemma monthlyAverages_of_spec (data : list Sample) :
  length (monthlyAverages_of data) = 12%nat
  /\ forall m, (m < 12)%nat ->
       nth m (monthlyAverages_of data) 0
       == match values_in_month data m with
          | [] => 0
          | _ :: _ => arithmetic_mean (values_in_month data m)
          end.
Proof.
  unfold monthlyAverages_of, monthly_totals.
  pose proof (season_fold_spec data (repeat 0 12) (repeat 0 12)
                eq_refl eq_refl) as (HD & HC & H).
  destruct (fold_left season_step data (repeat 0 12, repeat 0 12))
    as [monthlyData monthlyCounts].
  cbn [fst snd] in *. rewrite length_map, length_seq.
  split; [exact HD|].
  intros m Hm. rewrite nth_map_seq by lia.
  destruct (H m Hm) as [Hs Hc]. rewrite repeat_nth_zero in Hs, Hc.
  unfold JS.gtb, JS.get.
  rewrite (ltb_comp 0 0 _ (of_nat (length (values_in_month data m))))
    by (reflexivity || (rewrite Hc; ring)).
  destruct (values_in_month data m) as [|v vs] eqn:E.
  - reflexivity.
  - replace (JS.ltb 0 (of_nat (length (v :: vs)))) with true
      by (symmetry; apply ltb_spec, of_nat_pos; simpl; lia).
    unfold arithmetic_mean. rewrite Hs, Hc.
    apply Qdiv_comp; ring.
Qed.

(** X19.  On a host whose clock is UTC, where [getMonth] gives the month
    written in a date: the monthly patterns always have twelve entries;
    the entry of a month is the arithmetic mean of the values of the
    samples dated in that month, whatever the year, and 0 when no sample
    is. *)
Theorem analyzeSeasonality_monthly_means (data : list Sample) :
  length (monthly_patterns (analyzeSeasonality data)) = 12%nat
  /\ forall m, (m < 12)%nat ->
       nth m (monthly_patterns (analyzeSeasonality data)) 0
       == match values_in_month data m with
          | [] => 0
          | _ :: _ => arithmetic_mean (values_in_month data m)
          end.
Proof. exact (monthlyAverages_of_spec data). Qed.

Lemma fold_Math_max_spec (rest : list Q) (x : Q) :
  In (fold_left JS.Math_max rest x) (x :: rest)
  /\ forall y, In y (x :: rest) -> y <= fold_left JS.Math_max rest x.
Proof.
  revert x. induction rest as [|z rest IH]; intro x.
  - simpl. split; [now left|]. intros y [<- | []]. apply Qle_refl.
  - cbn [fold_left]. destruct (IH (JS.Math_max x z)) as [Hin Hub].
    pose proof (Math_max_lub x z) as [Hx Hz].
    split.
    + destruct Hin as [E | Hin]; [|right; now right].
      rewrite <- E.
      destruct (Math_max_cases x z) as [[-> _] | [-> _]];
        [now left | right; now left].
    + intros y [<- | [<- | Hy]].
      * eapply Qle_trans; [exact Hx | apply Hub; now left].
      * eapply Qle_trans; [exact Hz | apply Hub; now left].
      * apply Hub. now right.
Qed.

Lemma Math_min_cases (a b : Q) :
  (JS.Math_min a b = a /\ a <= b) \/ (JS.Math_min a b = b /\ b < a).
Proof.
  unfold JS.Math_min. destruct (JS.ltb b a) eqn:E.
  - right. split; [reflexivity | apply ltb_spec; exact E].
  - left. split; [reflexivity | apply ltb_false; exact E].
Qed.

Lemma fold_Math_min_spec (rest : list Q) (x : Q) :
  In (fold_left JS.Math_min rest x) (x :: rest)
  /\ forall y, In y (x :: rest) -> fold_left JS.Math_min rest x <= y.
Proof.
  revert x. induction rest as [|z rest IH]; intro x.
  - simpl. split; [now left|]. intros y [<- | []]. apply Qle_refl.
  - cbn [fold_left]. destruct (IH (JS.Math_min x z)) as [Hin Hlb].
    pose proof (Math_min_glb x z) as [Hx Hz].
    split.
    + destruct Hin as [E | Hin]; [|right; now right].
      rewrite <- E.
      destruct (Math_min_cases x z) as [[-> _] | [-> _]];
        [now left | right; now left].
    + intros y [<- | [<- | Hy]].
      * eapply Qle_trans; [apply Hlb; now left | exact Hx].
      * eapply Qle_trans; [apply Hlb; now left | exact Hz].
      * apply Hlb. now right.
Qed.

Lemma indexOf_from_spec (x : Q) (arr : list Q) (i : nat) :
  match indexOf_from x arr i with
  | Some r => exists k, r = (i + k)%nat /\ (k < length arr)%nat
                /\ nth k arr 0 == x
                /\ forall j, (j < k)%nat -> ~ nth j arr 0 == x
  | None => forall y, In y arr -> ~ y == x
  end.
Proof.
  revert i. induction arr as [|y arr IH]; intro i; simpl.
  - intros y [].
  - destruct (Qeq_bool y x) eqn:E.
    + exists 0%nat. split; [lia|]. split; [lia|].
      split; [now apply Qeq_bool_eq|]. intros j Hj. lia.
    + specialize (IH (S i)).
      assert (Hne : ~ y == x)
        by (intro H; apply Qeq_eq_bool in H; congruence).
      destruct (indexOf_from x arr (S i)) as [r|].
      * destruct IH as [k (-> & Hk & Hx & Hfirst)].
        exists (S k). split; [lia|]. split; [lia|]. split; [exact Hx|].
        intros [|j] Hj; [exact Hne | apply Hfirst; lia].
      * intros z [<- | Hz]; [exact Hne | now apply IH].
Qed.

(** The index that [indexOf] finds for the largest, or the smallest, of
    the entries of an array of twelve. *)
Lemma extreme_index (arr : list Q) (target : Q) :
  length arr = 12%nat -> In target arr ->
  exists p, indexOf arr target = Some p /\ (p < 12)%nat
            /\ nth p arr 0 == target
            /\ forall j, (j < p)%nat -> ~ nth j arr 0 == target.
Proof.
  intros Hlen Hin. unfold indexOf.
  pose proof (indexOf_from_spec target arr 0) as H.
  destruct (indexOf_from target arr 0) as [r|].
  - destruct H as [k (-> & Hk & Hx & Hfirst)].
    exists k. split; [reflexivity|]. split; [lia|]. split; assumption.
  - exfalso. apply (H target Hin). reflexivity.
Qed.

Lemma month_long_index (p : nat) :
  (p < 12)%nat -> month_long (Some p) = nth p month_names "".
Proof. intro H. unfold month_long. now rewrite Nat.mod_small. Qed.

Lemma analyzeSeasonality_extremes (data : list Sample) :
  exists p t : nat,
    (p < 12)%nat /\ (t < 12)%nat
    /\ peak_month (analyzeSeasonality data) = nth p month_names ""
    /\ trough_month (analyzeSeasonality data) = nth t month_names ""
    /\ (forall m, (m < 12)%nat ->
          nth m (monthly_patterns (analyzeSeasonality data)) 0
          <= nth p (monthly_patterns (analyzeSeasonality data)) 0)
    /\ (forall m, (m < p)%nat ->
          nth m (monthly_patterns (analyzeSeasonality data)) 0
          < nth p (monthly_patterns (analyzeSeasonality data)) 0)
    /\ (forall m, (m < 12)%nat ->
          nth t (monthly_patterns (analyzeSeasonality data)) 0
          <= nth m (monthly_patterns (analyzeSeasonality data)) 0)
    /\ (forall m, (m < t)%nat ->
          nth t (monthly_patterns (analyzeSeasonality data)) 0
          < nth m (monthly_patterns (analyzeSeasonality data)) 0).
Proof.
  unfold analyzeSeasonality.
  cbn [peak_month trough_month monthly_patterns].
  destruct (monthlyAverages_of_spec data) as [Hlen _].
  set (avg := monthlyAverages_of data) in *.
  destruct avg as [|x rest] eqn:Eavg; [discriminate Hlen|].
  destruct (fold_Math_max_spec rest x) as [Hmax_in Hmax_ub].
  destruct (fold_Math_min_spec rest x) as [Hmin_in Hmin_lb].
  change (fold_left JS.Math_max rest x) with (Math_max_spread (x :: rest))
    in Hmax_in, Hmax_ub.
  change (fold_left JS.Math_min rest x) with (Math_min_spread (x :: rest))
    in Hmin_in, Hmin_lb.
  destruct (extreme_index _ _ Hlen Hmax_in) as [p (Ep & Hp & Hpv & Hpf)].
  destruct (extreme_index _ _ Hlen Hmin_in) as [t (Et & Ht & Htv & Htf)].
  exists p, t. rewrite Ep, Et, !month_long_index by assumption.
  split; [exact Hp|]. split; [exact Ht|].
  split; [reflexivity|]. split; [reflexivity|].
  assert (Hnth : forall m, (m < 12)%nat -> In (nth m (x :: rest) 0) (x :: rest))
    by (intros m Hm; apply nth_In; lia).
  split; [|split; [|split]].
  - intros m Hm. rewrite Hpv. apply Hmax_ub, Hnth, Hm.
  - intros m Hm. rewrite Hpv.
    pose proof (Hmax_ub _ (Hnth m ltac:(lia))) as Hle.
    apply Qle_lt_or_eq in Hle as [Hlt | Heq]; [exact Hlt|].
    exfalso. exact (Hpf m Hm Heq).
  - intros m Hm. rewrite Htv. apply Hmin_lb, Hnth, Hm.
  - intros m Hm. rewrite Htv.
    pose proof (Hmin_lb _ (Hnth m ltac:(lia))) as Hle.
    apply Qle_lt_or_eq in Hle as [Hlt | Heq]; [exact Hlt|].
    exfalso. apply (Htf m Hm). now symmetry.
Qed.

(** X20.  The peak month is the name of the first month with the largest
    monthly average, and the trough month the name of the first month
    with the smallest: every average lies between the two and every
    earlier month is strictly below the peak, or above the trough. *)
Theorem analyzeSeasonality_peak_and_trough (data : list Sample) :
  exists p t : nat,
    (p < 12)%nat /\ (t < 12)%nat
    /\ peak_month (analyzeSeasonality data) = nth p month_names ""
    /\ trough_month (analyzeSeasonality data) = nth t month_names ""
    /\ (forall m, (m < 12)%nat ->
          nth m (monthly_patterns (analyzeSeasonality data)) 0
          <= nth p (monthly_patterns (analyzeSeasonality data)) 0)
    /\ (forall m, (m < p)%nat ->
          nth m (monthly_patterns (analyzeSeasonality data)) 0
          < nth p (monthly_patterns (analyzeSeasonality data)) 0)
    /\ (forall m, (m < 12)%nat ->
          nth t (monthly_patterns (analyzeSeasonality data)) 0
          <= nth m (monthly_patterns (analyzeSeasonality data)) 0)
    /\ (forall m, (m < t)%nat ->
          nth t (monthly_patterns (analyzeSeasonality data)) 0
          < nth m (monthly_patterns (analyzeSeasonality data)) 0).
Proof. exact (analyzeSeasonality_extremes data). Qed.


Lemma values_in_month_single (data : list Sample) (m0 m : nat) :
  Forall (fun d => getMonth (date d) = Z.of_nat m0) data ->
  values_in_month data m = if (m =? m0)%nat then map value data else [].
Proof.
  intro H. unfold values_in_month.
  induction H as [|d data Hd _ IH]; cbn [filter map].
  - now destruct (m =? m0)%nat.
  - rewrite Hd. destruct (Nat.eqb_spec m m0) as [-> | Hne].
    + rewrite Z.eqb_refl. cbn [map]. now rewrite IH.
    + replace (Z.of_nat m0 =? Z.of_nat m)%Z with false
        by (symmetry; apply Z.eqb_neq; lia).
      exact IH.
Qed.

Lemma sum_positive (l : list Q) :
  Forall (fun x => 0 < x) l -> l <> [] -> 0 < fold_right Qplus 0 l.
Proof.
  intros H Hne. destruct H as [|x l Hx Hl]; [contradiction|].
  simpl. assert (0 <= fold_right Qplus 0 l).
  { apply sum_nonneg. eapply Forall_impl; [|exact Hl].
    intros a Ha. now apply Qlt_le_weak. }
  lra.
Qed.

(** X21.  On a host whose clock is UTC, where [getMonth] gives the month
    written in a date: when all samples are dated in one month and their
    values are positive, that month is the peak month, every other monthly
    average is 0, and the trough month is January, or February when the
    samples are in January. *)
Theorem analyzeSeasonality_single_month (data : list Sample) (m0 : nat) :
  (m0 < 12)%nat -> data <> [] ->
  Forall (fun d => getMonth (date d) = Z.of_nat m0) data ->
  Forall (fun d => 0 < value d) data ->
  peak_month (analyzeSeasonality data) = nth m0 month_names ""
  /\ trough_month (analyzeSeasonality data)
     = (if (m0 =? 0)%nat then "February" else "January")
  /\ forall m, (m < 12)%nat -> m <> m0 ->
       nth m (monthly_patterns (analyzeSeasonality data)) 0 == 0.
Proof.
  intros Hm0 Hne Hmonth Hpos.
  destruct (monthlyAverages_of_spec data) as [_ Havg].
  change (monthlyAverages_of data)
    with (monthly_patterns (analyzeSeasonality data)) in Havg.
  set (avg := fun m => nth m (monthly_patterns (analyzeSeasonality data)) 0).
  assert (Hzero : forall m, (m < 12)%nat -> m <> m0 -> avg m == 0).
  { intros m Hm Hd. unfold avg. rewrite (Havg m Hm).
    rewrite (values_in_month_single data m0 m Hmonth).
    now replace (m =? m0)%nat with false by (symmetry; apply Nat.eqb_neq; lia). }
  assert (Hbig : 0 < avg m0).
  { unfold avg. rewrite (Havg m0 Hm0).
    rewrite (values_in_month_single data m0 m0 Hmonth), Nat.eqb_refl.
    destruct data as [|d data]; [contradiction|]. cbn [map].
    unfold arithmetic_mean. apply Qlt_shift_div_l.
    - apply of_nat_pos. simpl. lia.
    - rewrite Qmult_0_l. apply sum_positive; [|discriminate].
      change (value d :: map value data) with (map value (d :: data)).
      now apply Forall_map. }
  destruct (analyzeSeasonality_extremes data)
    as (p & t & Hp & Ht & -> & -> & Hmax & _ & Hmin & Hfirst).
  fold (avg p) in Hmax. fold (avg t) in Hmin, Hfirst.
  assert (Ep : p = m0).
  { destruct (Nat.eq_dec p m0) as [E | E]; [exact E|]. exfalso.
    pose proof (Hmax m0 Hm0) as H. fold (avg m0) in H.
    rewrite (Hzero p Hp E) in H. lra. }
  assert (Et0 : t <> m0).
  { intro E. subst t.
    destruct (Nat.eq_dec m0 0) as [E0 | E0].
    - pose proof (Hmin 1%nat ltac:(lia)) as H. fold (avg 1%nat) in H.
      rewrite (Hzero 1%nat) in H by lia. lra.
    - pose proof (Hmin 0%nat ltac:(lia)) as H. fold (avg 0%nat) in H.
      rewrite (Hzero 0%nat) in H by lia. lra. }
  assert (Hbelow : forall m, (m < t)%nat -> m = m0).
  { intros m Hm. destruct (Nat.eq_dec m m0) as [E | E]; [exact E|]. exfalso.
    pose proof (Hfirst m Hm) as H. fold (avg m) in H.
    rewrite (Hzero m) in H by lia. rewrite (Hzero t Ht Et0) in H.
    exact (Qlt_irrefl 0 H). }
  split; [now rewrite Ep|]. split; [|exact Hzero].
  destruct (Nat.eqb_spec m0 0) as [E0 | E0].
  - assert (t = 1)%nat as ->; [|reflexivity].
    destruct t as [|[|t]]; [lia | reflexivity |].
    specialize (Hbelow 1%nat ltac:(lia)). lia.
  - assert (t = 0)%nat as ->; [|reflexivity].
    destruct t as [|t]; [reflexivity|].
    specialize (Hbelow 0%nat ltac:(lia)). lia.
Qed.

Lemma analyzeSeasonality_single_month_witness :
  peak_month (analyzeSeasonality (daily [0.5; 0.7; 0.6]))
  = nth 0 month_names ""
  /\ trough_month (analyzeSeasonality (daily [0.5; 0.7; 0.6]))
     = (if (0 =? 0)%nat then "February" else "January")
  /\ forall m, (m < 12)%nat -> m <> 0%nat ->
       nth m (monthly_patterns (analyzeSeasonality (daily [0.5; 0.7; 0.6]))) 0
       == 0.
Proof.
  apply (analyzeSeasonality_single_month (daily [0.5; 0.7; 0.6]) 0).
  - lia.
  - discriminate.
  - repeat constructor.
  - repeat (constructor; [reflexivity|]). constructor.
Defined.
